(** * BitcoinBaseChain: the base chain adapter of ren-js

    A shallow embedding of the class [BitcoinBaseChain], which every
    Bitcoin chain and fork extends, together with the properties its
    specification states about it.

    Conventions.
    - A method that can [throw] (or whose promise can reject) returns a
      [Result]; [Throw e] carries the error.
    - [this] is passed explicitly as a record of the instance fields.
    - Calls that leave the process (the provider pool, the caller's
      callbacks, the console, the timer) are recorded as a list of [Event]s;
      what the outside world answers is read from an [Env]. *)

From Stdlib Require Import ZArith List String Ascii Lia Bool.
From Stdlib Require Import Decimal DecimalString DecimalPos DecimalN.
From stdpp Require Import base option gmap strings list.

Import ListNotations.
Local Open Scope string_scope.
Local Open Scope Z_scope.

(** ** Errors and results *)

(** The [Error]s the class throws, by kind; [message] is the text given to
    [new Error(...)].  [ProviderFailure] is a rejection coming out of the
    provider pool. [TypeError] is thrown by the language itself, not by a
    [throw] of the class; its text is the engine's. *)
Inductive Error : Type :=
| UnknownNetwork (network : string)
| InvalidNetworkConfig
| InvalidAddress (address : string)
| UnsupportedAsset (asset chain : string)
| InvalidPayload (payloadChain chain : string)
| InvalidRetryAmount (retries : nat)
| ProviderFailure (reason : string)
| TypeError (text : string).

Definition message (e : Error) : string :=
  match e with
  | UnknownNetwork network => "Unknown network " ++ network ++ "."
  | InvalidNetworkConfig => "Invalid network config."
  | InvalidAddress address => "Invalid address " ++ address ++ "."
  | UnsupportedAsset asset chain =>
      "Asset " ++ asset ++ " not supported on " ++ chain ++ "."
  | InvalidPayload payloadChain chain =>
      "Invalid payload for chain " ++ payloadChain ++ " instead of " ++ chain ++ "."
  | InvalidRetryAmount _ => "Invalid retry amount."
  | ProviderFailure reason => reason
  | TypeError text => text
  end.

Inductive Result (A : Type) : Type :=
| Ok (a : A)
| Throw (e : Error).
Arguments Ok {A} a.
Arguments Throw {A} e.

Definition bind {A B} (r : Result A) (k : A -> Result B) : Result B :=
  match r with
  | Ok a => k a
  | Throw e => Throw e
  end.

Notation "'guard!' r 'in' k" := (bind r (fun _ => k))
  (at level 10, r at level 100, k at level 200).

Definition is_ok {A} (r : Result A) : bool :=
  match r with Ok _ => true | Throw _ => false end.

(** ** bignumber.js

    The finite values of [BigNumber] and the operations the class uses.
    A value is [unscaled * 10^(-dp)]. bignumber.js keeps the coefficient of
    a value free of trailing zeros, so every operation ends in [normalize].
    [NaN] is [None]; the infinities cannot arise from the calls made here
    (the only divisor is the constant [10^8]). *)
Module BigNumber.

Record t := { unscaled : Z; dp : nat }.

(** Configuration defaults of bignumber.js. *)
Definition DECIMAL_PLACES : nat := 20.

Fixpoint strip (c : Z) (d : nat) : t :=
  match d with
  | O => {| unscaled := c; dp := O |}
  | S d' =>
      if c mod 10 =? 0 then strip (c / 10) d'
      else {| unscaled := c; dp := d |}
  end.

Definition normalize (x : t) : t := strip (unscaled x) (dp x).

Definition of_Z (z : Z) : t := {| unscaled := z; dp := O |}.

(** [ROUNDING_MODE = ROUND_HALF_UP]: to the nearest integer, away from
    zero when equidistant. *)
Definition round_half_up (num den : Z) : Z :=
  Z.sgn num * Z.sgn den * ((2 * Z.abs num + Z.abs den) / (2 * Z.abs den)).

Definition times (x y : t) : t :=
  normalize {| unscaled := unscaled x * unscaled y; dp := (dp x + dp y)%nat |}.

Definition plus (x y : t) : t :=
  normalize {| unscaled := unscaled x * 10 ^ Z.of_nat (dp y)
                           + unscaled y * 10 ^ Z.of_nat (dp x);
               dp := (dp x + dp y)%nat |}.

Definition minus (x y : t) : t :=
  normalize {| unscaled := unscaled x * 10 ^ Z.of_nat (dp y)
                           - unscaled y * 10 ^ Z.of_nat (dp x);
               dp := (dp x + dp y)%nat |}.

(** [x.exponentiatedBy(n)] for a non-negative integer [n]
    ([POW_PRECISION = 0]: the power is exact). *)
Definition exponentiatedBy (x : t) (n : nat) : t :=
  normalize {| unscaled := unscaled x ^ Z.of_nat n; dp := (dp x * n)%nat |}.

(** [x.dividedBy(y)]: the quotient rounded to [DECIMAL_PLACES] places.
    A zero divisor gives [NaN] or an infinity: [None]. *)
Definition dividedBy (x y : t) : option t :=
  if unscaled y =? 0 then None
  else Some (normalize
    {| unscaled :=
         round_half_up (unscaled x * 10 ^ Z.of_nat (DECIMAL_PLACES + dp y))
                       (unscaled y * 10 ^ Z.of_nat (dp x));
       dp := DECIMAL_PLACES |}).

(** [x.decimalPlaces(n)]: [x] rounded to at most [n] decimal places. *)
Definition decimalPlaces (x : t) (n : nat) : t :=
  if (dp x <=? n)%nat then normalize x
  else normalize
    {| unscaled := round_half_up (unscaled x) (10 ^ Z.of_nat (dp x - n)%nat);
       dp := n |}.

(** The decimal digits of a natural number, without leading zeros. *)
Definition digits (n : Z) : string :=
  NilZero.string_of_uint (N.to_uint (Z.to_N n)).

Fixpoint zeros (n : nat) : string :=
  match n with
  | O => ""
  | S n' => String "0" (zeros n')
  end.

(** [toFixedPoint]: places the decimal point in the digit string [str] of
    a coefficient with [d] decimal places. *)
Definition toFixedPoint (str : string) (d : nat) : string :=
  let len := String.length str in
  if (d =? 0)%nat then str
  else if (d <? len)%nat then
    substring 0 (len - d)%nat str ++ "." ++ substring (len - d)%nat d str
  else "0." ++ zeros (d - len)%nat ++ str.

(** [x.toFixed()]: normal (never exponential) notation. *)
Definition toFixed (x : t) : string :=
  let n := normalize x in
  (if unscaled n <? 0 then "-" else "")
    ++ toFixedPoint (digits (Z.abs (unscaled n))) (dp n).

(** [new BigNumber(str)] for a plain decimal literal: an optional minus
    sign, then digits with at most one decimal point and a digit on at
    least one side of it. Exponent notation, other bases and the
    infinities are not part of this model; like any other text they
    give [None]. *)
Fixpoint split_dot (s : string) : string * option string :=
  match s with
  | "" => ("", None)
  | String c r =>
      if Ascii.eqb c "." then ("", Some r)
      else let '(a, b) := split_dot r in (String c a, b)
  end.

(** The number a string of decimal digits denotes. *)
Definition valueOf (s : string) : option Z :=
  u ← NilEmpty.uint_of_string s; Some (Z.of_uint u).

Definition of_digits (ip fp : string) : option t :=
  if ((String.length ip + String.length fp)%nat =? 0)%nat then None
  else
    c ← valueOf (ip ++ fp);
    Some {| unscaled := c; dp := String.length fp |}.

Definition signOf (s : string) : bool * string :=
  match s with
  | String c r => if Ascii.eqb c "-" then (true, r) else (false, s)
  | "" => (false, s)
  end.

Definition of_string (s : string) : option t :=
  let '(negative, body) := signOf s in
  let '(ip, fp) := split_dot body in
  x ← of_digits ip (match fp with Some f => f | None => "" end);
  Some (normalize
    {| unscaled := if negative then - unscaled x else unscaled x;
       dp := dp x |}).

(** A string made of decimal digits only. *)
Definition numeric (s : string) : Prop :=
  exists u, NilEmpty.uint_of_string s = Some u.

(** The argument of [new BigNumber(value)]: a [BigNumber] or a string. *)
Inductive Value : Type :=
| OfBigNumber (x : t)
| OfString (s : string).

Definition new (value : Value) : option t :=
  match value with
  | OfBigNumber x => Some (normalize x)
  | OfString s => of_string s
  end.

(** [toFixed] of a possibly-[NaN] value. *)
Definition toFixed_opt (x : option t) : string :=
  match x with
  | Some x => toFixed x
  | None => "NaN"
  end.

(** The number of satoshis in [x], for [x] with at most 8 decimal
    places. *)
Definition satoshis (x : t) : Z := unscaled x * 10 ^ Z.of_nat (8 - dp x).

End BigNumber.

(** ** Data model *)

Definition Buffer := list Byte.byte.

Record NativeAsset := { symbol : string }.

(** [APIWithPriority]: an object [{ api, priority }]. A [BitcoinAPI] is
    identified by its endpoint. *)
Record APIWithPriority := { endpoint : string; priority : Z }.

(** What [withAPI] takes and [providers] lists,
    [BitcoinAPI | APIWithPriority]: a bare API, or an API that comes with a
    priority of its own. *)
Inductive Provider : Type :=
| BitcoinAPI (endpoint : string)
| Prioritised (api : APIWithPriority).

(** [BitcoinNetworkConfig]: the fields the class reads. *)
Record BitcoinNetworkConfig := {
  selector : string;
  nativeAsset : NativeAsset;
  isTestnet : bool;
  p2shPrefix : Buffer;
  providers : list Provider;
}.

(** [BitcoinNetworkInput]: a selector string, a network configuration
    (an object for which [isBitcoinNetworkConfig] holds), or an object for
    which it does not. The last one is used as a property key of
    [configMap] through its string conversion [key]. *)
Inductive BitcoinNetworkInput : Type :=
| NetworkSelector (network : string)
| NetworkConfig (config : BitcoinNetworkConfig)
| NetworkObject (key : string).

Definition isBitcoinNetworkConfig (network : BitcoinNetworkInput)
  : option BitcoinNetworkConfig :=
  match network with
  | NetworkConfig config => Some config
  | _ => None
  end.

Definition isString (network : BitcoinNetworkInput) : option string :=
  match network with
  | NetworkSelector s => Some s
  | _ => None
  end.

(** [this.configMap[network]] for an input that is not a configuration. *)
Definition propertyKey (network : BitcoinNetworkInput) : string :=
  match network with
  | NetworkSelector s => s
  | NetworkConfig config => "[object Object]"
  | NetworkObject key => key
  end.

(** One call [api.withAPI(provider, { priority })] of a [CombinedAPI]: the
    two arguments as they were passed. *)
Record Registration := { provider : Provider; priorityOption : Z }.

(** The properties every object inherits from [Object.prototype]. For
    [configMap = {}] each of them is found by [configMap[key]], with a
    function or an object as its value: a value that is truthy and has no
    [selector] and no [providers]. *)
Definition inheritedKeys : list string :=
  [ "constructor"; "__proto__"; "hasOwnProperty"; "isPrototypeOf";
    "propertyIsEnumerable"; "toLocaleString"; "toString"; "valueOf";
    "__defineGetter__"; "__defineSetter__"; "__lookupGetter__";
    "__lookupSetter__" ].

Definition isInherited (key : string) : bool :=
  existsb (String.eqb key) inheritedKeys.

(** [configMap[key]] for a [configMap] written as an object literal: the
    own property if there is one, else what [Object.prototype] has under
    that name, else [undefined]. *)
Inductive PropertyValue : Type :=
| OwnProperty (config : BitcoinNetworkConfig)
| InheritedProperty
| Undefined.

Definition getProperty (cm : gmap string BitcoinNetworkConfig) (key : string)
  : PropertyValue :=
  match cm !! key with
  | Some config => OwnProperty config
  | None => if isInherited key then InheritedProperty else Undefined
  end.

(** Modelled from the spec: [CombinedAPI], the provider pool, whose code is
    not among the sources. Nothing is assumed of what it does with a
    provider: an instance is represented by the [withAPI] calls made on it
    so far, in order, each with the arguments it was given. *)
Definition CombinedAPI := list Registration.

(** Modelled from the spec: [CombinedAPI.withAPI], the pool's
    [addProvider]. The call is added to the record of the instance; which
    priority the pool then gives to a provider that comes with one of its
    own is the pool's matter and is not modelled. *)
Definition CombinedAPI_withAPI (pool : CombinedAPI) (api : Provider)
    (prio : Z) : CombinedAPI :=
  (pool ++ [ {| provider := api; priorityOption := prio |} ])%list.

(** The instance fields of [BitcoinBaseChain]. *)
Record BitcoinBaseChain := {
  chain : string;
  configMap : gmap string BitcoinNetworkConfig;
  network : BitcoinNetworkConfig;
  api : CombinedAPI;
}.

(** [withAPI(api, { priority = 0 } = {})]: [prio] is [priority] after the
    default has been applied; the argument and the priority are handed to
    [this.api.withAPI] as they are. *)
Definition withAPI (this : BitcoinBaseChain) (provider : Provider) (prio : Z)
  : BitcoinBaseChain :=
  {| chain := chain this;
     configMap := configMap this;
     network := network this;
     api := CombinedAPI_withAPI (api this) provider prio |}.

(** What the loop [for (const provider of this.network.providers)] throws
    when [this.network] has no [providers]. *)
Definition notIterable : Error :=
  TypeError "this.network.providers is not iterable".

(** The statements of the constructor once [networkConfig] is a
    configuration: the fields are set and every provider of the
    configuration goes through [withAPI], with no second argument. *)
Definition configure (cm : gmap string BitcoinNetworkConfig)
    (config : BitcoinNetworkConfig) : BitcoinBaseChain :=
  fold_left (fun this provider => withAPI this provider 0)
    (providers config)
    {| chain := selector config;
       configMap := cm;
       network := config;
       api := [] |}.

(** The body of [constructor(network)], run with [cm] as the value of
    [this.configMap]. An input that is not a configuration is looked up in
    [cm] as a property key. What the lookup finds is tested by
    [!networkConfig] only: an inherited property passes the test, becomes
    [this.network], and the loop over its [providers] throws. *)
Definition new_BitcoinBaseChain
    (cm : gmap string BitcoinNetworkConfig) (input : BitcoinNetworkInput)
  : Result BitcoinBaseChain :=
  match isBitcoinNetworkConfig input with
  | Some config => Ok (configure cm config)
  | None =>
      match getProperty cm (propertyKey input) with
      | OwnProperty config => Ok (configure cm config)
      | InheritedProperty => Throw notIterable
      | Undefined =>
          match isString input with
          | Some s => Throw (UnknownNetwork s)
          | None => Throw InvalidNetworkConfig
          end
      end
  end.

(** [new BitcoinBaseChain(network)] as the class runs it. The field
    initialiser [public configMap: BitcoinNetworkConfigMap = {}] is
    executed before the body of the constructor, and the initialisers of a
    subclass only after it: when [this.configMap[network]] is evaluated,
    [this.configMap] is the empty object, whatever map the adapter
    declares. *)
Definition construct (input : BitcoinNetworkInput) : Result BitcoinBaseChain :=
  new_BitcoinBaseChain ∅ input.

(** ** Transactions *)

(** Modelled from the spec: the type of what a provider returns for an
    output, which is declared outside the sources. The provider contract
    of the spec has heights as integers: [height] is the height of the
    block the output is in, a number, and [None] ([null]) while the
    output is unconfirmed. *)
Module UTXO.
Record t := {
  txid : string;
  txindex : string;
  amount : string;
  height : option Z;
}.
End UTXO.

Module ChainTransaction.
Record t := { txid : string; txindex : string }.
End ChainTransaction.

Module InputChainTransaction.
Record t := { txid : string; txindex : string; amount : string }.
End InputChainTransaction.

(** ** Imported functions

    Functions the class imports from other packages ([@renproject/utils],
    [bs58], [./script/index], [./utils/utils]) and from [Buffer]. Their
    code is not part of this module; everything below holds for whatever
    they compute. *)
Class Imports := {
  hash160 : Buffer -> Buffer;
  createAddressBuffer : Buffer -> Buffer -> Buffer -> Buffer;
  base58_encode : Buffer -> string;
  fromHex : string -> Buffer;
  fromBase64 : string -> Buffer;
  toURLBase64 : Buffer -> string;
  toHexString : Buffer -> string;
  utils_validateAddress : string -> string -> string -> bool;
  SECONDS : Z;
}.

(** ** The outside world *)

(** What the provider pool answers. The first argument of each field is
    the number of calls of that operation made before this one, so that
    two calls with the same arguments may be answered differently. *)
Record Env := {
  fetchTXs : nat -> string -> Result (list UTXO.t);
  fetchUTXOs : nat -> string -> Result (list UTXO.t);
  fetchUTXO : nat -> string -> string -> Result UTXO.t;
  fetchHeight : nat -> Result Z;
}.

(** How many calls of each operation have been made. *)
Record Calls := {
  nFetchTXs : nat;
  nFetchUTXOs : nat;
  nFetchUTXO : nat;
  nFetchHeight : nat;
}.

Definition noCalls : Calls :=
  {| nFetchTXs := 0; nFetchUTXOs := 0; nFetchUTXO := 0; nFetchHeight := 0 |}.

(** Calls that are visible from outside the class. *)
Inductive Event : Type :=
| FetchTXs (address : string)
| FetchUTXOs (address : string)
| OnDeposit (deposit : InputChainTransaction.t)
| ListenerCancelled (answer : bool)
| ConsoleError (error : Error)
| Sleep (ms : Z).

(** How a call of [watchForDeposits] stands: its promise resolved, was
    rejected, or is still pending after the iterations that were run. *)
Inductive Outcome : Type :=
| Returned
| Rejected (error : Error)
| Pending.

(** Modelled from the spec: [tryNTimes] of [@renproject/utils], whose code
    is not among the sources. It calls [fnCall] until a call succeeds, at
    most [retries] times, and fails with the last error. [fnCall n] is the
    call made after [n] earlier ones: the calls it makes outside and its
    result. The result comes with the events of all attempts and the
    number of calls made. The events are those of the attempts only: the
    time the helper lets pass between two attempts is not recorded, so a
    [Sleep] in a trace is always one made by the class itself. *)
Fixpoint tryNTimes_from {A} (fnCall : nat -> list Event * Result A)
    (retries : nat) (n : nat) (last : Error)
  : list Event * Result A * nat :=
  match retries with
  | O => ([], Throw last, n)
  | S retries' =>
      match fnCall n with
      | (events, Ok a) => (events, Ok a, S n)
      | (events, Throw e) =>
          let '(events', r, n') := tryNTimes_from fnCall retries' (S n) e in
          ((events ++ events')%list, r, n')
      end
  end.

Definition tryNTimes {A} (fnCall : nat -> list Event * Result A)
    (retries : nat) (n : nat) : list Event * Result A * nat :=
  tryNTimes_from fnCall retries n (InvalidRetryAmount retries).

(** ** The methods of BitcoinBaseChain *)

Section Methods.
Context `{Imports}.
Variable this : BitcoinBaseChain.

(** [validateAddress(address)] *)
Definition validateAddress (address : string) : bool :=
  utils_validateAddress address
    (symbol (nativeAsset (network this)))
    (if isTestnet (network this) then "prod" else "testnet").

(** [transactionHash(transaction)] *)
Definition transactionHash (transaction : ChainTransaction.t) : string :=
  toHexString (rev (fromBase64 (ChainTransaction.txid transaction))).

(** [assetIsNative(asset)]; [assetIsSupported] is the same function. *)
Definition assetIsNative (asset : string) : bool :=
  String.eqb asset (symbol (nativeAsset (network this))).

Definition assetIsSupported := assetIsNative.

(** [assertAssetIsSupported(asset)] *)
Definition assertAssetIsSupported (asset : string) : Result unit :=
  if negb (assetIsNative asset)
  then Throw (UnsupportedAsset asset (chain this))
  else Ok tt.

(** [getOutputPayload(asset, _type, toPayload)]; [toPayload] is given by
    its [address]. The result is [{ to, payload }]. *)
Definition getOutputPayload (asset : string) (toPayload_address : string)
  : Result (string * Buffer) :=
  guard! assertAssetIsSupported asset in
  Ok (toPayload_address, []).

(** [getBalance(asset, address)] *)
Definition getBalance (asset : string) (address : string)
  : Result BigNumber.t :=
  guard! assertAssetIsSupported asset in
  if negb (validateAddress address)
  then Throw (InvalidAddress address)
  else Ok (BigNumber.of_Z 0).

(** [isDepositAsset(asset)] *)
Definition isDepositAsset (asset : string) : Result bool :=
  guard! assertAssetIsSupported asset in
  Ok true.

(** [assetDecimals(asset)] *)
Definition assetDecimals (asset : string) : Result Z :=
  guard! assertAssetIsSupported asset in
  Ok 8.

(** [createGatewayAddress(asset, fromPayload, shardPublicKey, gHash)];
    [fromPayload] is given by its [chain]. *)
Definition createGatewayAddress (asset : string) (fromPayload_chain : string)
    (shardPublicKey gHash : Buffer) : Result string :=
  if negb (String.eqb fromPayload_chain (chain this))
  then Throw (InvalidPayload fromPayload_chain (chain this))
  else
    guard! assertAssetIsSupported asset in
    Ok (base58_encode
          (createAddressBuffer (hash160 shardPublicKey) gHash
             (p2shPrefix (network this)))).

(** [transactionConfidence(transaction)]. [!height] holds for [null] and
    for the number [0]. *)
Definition transactionConfidence (env : Env)
    (transaction : ChainTransaction.t) (calls : Calls)
  : Result BigNumber.t * Calls :=
  let calls1 :=
    {| nFetchTXs := nFetchTXs calls;
       nFetchUTXOs := nFetchUTXOs calls;
       nFetchUTXO := S (nFetchUTXO calls);
       nFetchHeight := nFetchHeight calls |} in
  let calls2 :=
    {| nFetchTXs := nFetchTXs calls;
       nFetchUTXOs := nFetchUTXOs calls;
       nFetchUTXO := S (nFetchUTXO calls);
       nFetchHeight := S (nFetchHeight calls) |} in
  match fetchUTXO env (nFetchUTXO calls)
          (transactionHash transaction)
          (ChainTransaction.txindex transaction) with
  | Throw e => (Throw e, calls1)
  | Ok utxo =>
      match UTXO.height utxo with
      | None => (Ok (BigNumber.of_Z 0), calls1)
      | Some height =>
          if height =? 0 then (Ok (BigNumber.of_Z 0), calls1)
          else
            match fetchHeight env (nFetchHeight calls) with
            | Throw e => (Throw e, calls2)
            | Ok latest =>
                let latestHeight := BigNumber.of_Z latest in
                (Ok (BigNumber.plus
                       (BigNumber.minus latestHeight (BigNumber.of_Z height))
                       (BigNumber.of_Z 1)),
                 calls2)
            end
      end
  end.

(** The deposit built from a provider's output in [watchForDeposits]. *)
Definition toDeposit (tx : UTXO.t) : InputChainTransaction.t :=
  {| InputChainTransaction.txid :=
       toURLBase64 (rev (fromHex (UTXO.txid tx)));
     InputChainTransaction.txindex := UTXO.txindex tx;
     InputChainTransaction.amount := UTXO.amount tx |}.

(** [txs.map(async (tx) => onDeposit({...}))]: the handler is called for
    each element in turn; the promises are not awaited. *)
Definition reportDeposits (txs : list UTXO.t) : list Event :=
  map (fun tx => OnDeposit (toDeposit tx)) txs.

(** The [while (true)] loop of [watchForDeposits], run for at most [fuel]
    iterations. [listenerCancelled k] is the answer of the caller's
    predicate to its call number [k]; [iteration] counts the iterations
    and [n] the calls of [fetchUTXOs] made before. *)
Fixpoint pollingLoop (env : Env) (address : string)
    (listenerCancelled : nat -> bool)
    (fuel : nat) (iteration : nat) (n : nat) : list Event * Outcome :=
  match fuel with
  | O => ([], Pending)
  | S fuel' =>
      if listenerCancelled iteration
      then ([ListenerCancelled true], Returned)
      else
        let body :=
          match fetchUTXOs env n address with
          | Ok utxos => FetchUTXOs address :: reportDeposits utxos
          | Throw error => [FetchUTXOs address; ConsoleError error]
          end in
        let '(rest, outcome) :=
          pollingLoop env address listenerCancelled
            fuel' (S iteration) (S n) in
        ((ListenerCancelled false :: body
            ++ Sleep (15 * SECONDS) :: rest)%list,
         outcome)
  end.

(** [watchForDeposits(asset, fromPayload, address, onDeposit,
    _removeDeposit, listenerCancelled)], its loop run for at most [fuel]
    iterations. *)
Definition watchForDeposits (env : Env) (asset : string)
    (fromPayload_chain : string) (address : string)
    (listenerCancelled : nat -> bool) (fuel : nat) (calls : Calls)
  : list Event * Outcome :=
  if negb (String.eqb fromPayload_chain (chain this))
  then ([], Rejected (InvalidPayload fromPayload_chain (chain this)))
  else
    match assertAssetIsSupported asset with
    | Throw e => ([], Rejected e)
    | Ok _ =>
        let '(attempts, txs, _) :=
          tryNTimes
            (fun n => ([FetchTXs address], fetchTXs env n address))
            2 (nFetchTXs calls) in
        let discovered :=
          match txs with
          | Ok txs => reportDeposits txs
          | Throw _ => []
          end in
        let '(rest, outcome) :=
          pollingLoop env address listenerCancelled
            fuel 0 (nFetchUTXOs calls) in
        ((attempts ++ discovered ++ rest)%list, outcome)
    end.

End Methods.

(** [toSats(value)] and [fromSats(value)] *)
Definition toSats (value : BigNumber.Value) : string :=
  BigNumber.toFixed_opt
    (x ← BigNumber.new value;
     Some (BigNumber.decimalPlaces
             (BigNumber.times x
                (BigNumber.exponentiatedBy (BigNumber.of_Z 10) 8))
             0)).

Definition fromSats (value : BigNumber.Value) : string :=
  BigNumber.toFixed_opt
    (x ← BigNumber.new value;
     BigNumber.dividedBy x
       (BigNumber.exponentiatedBy (BigNumber.of_Z 10) 8)).


(** ** Reading a trace *)

(** The deposits handed to [onDeposit], in call order. *)
Fixpoint handlerCalls (events : list Event) : list InputChainTransaction.t :=
  match events with
  | [] => []
  | OnDeposit deposit :: events' => deposit :: handlerCalls events'
  | _ :: events' => handlerCalls events'
  end.

(** What identifies a deposit: [(txid, txindex)]. *)
Definition depositKey (deposit : InputChainTransaction.t) : string * string :=
  (InputChainTransaction.txid deposit, InputChainTransaction.txindex deposit).

(** The answers [listenerCancelled] gave, in call order. *)
Fixpoint cancelAnswers (events : list Event) : list bool :=
  match events with
  | [] => []
  | ListenerCancelled answer :: events' => answer :: cancelAnswers events'
  | _ :: events' => cancelAnswers events'
  end.

Definition isFetchTXs (e : Event) : bool :=
  match e with FetchTXs _ => true | _ => false end.

Definition isFetchUTXOs (e : Event) : bool :=
  match e with FetchUTXOs _ => true | _ => false end.

Definition isConsoleError (e : Event) : bool :=
  match e with ConsoleError _ => true | _ => false end.

(** For each [console.error], the number of [fetchUTXOs] calls made since
    [listenerCancelled] was last asked, that is, in the same iteration;
    [attempts] is the count so far. *)
Fixpoint attemptsBeforeLog (events : list Event) (attempts : nat) : list nat :=
  match events with
  | [] => []
  | ListenerCancelled _ :: events' => attemptsBeforeLog events' 0
  | FetchUTXOs _ :: events' => attemptsBeforeLog events' (S attempts)
  | ConsoleError _ :: events' => attempts :: attemptsBeforeLog events' attempts
  | _ :: events' => attemptsBeforeLog events' attempts
  end.

(** ** What a watch session polls *)

Definition okOrEmpty {A} (r : Result (list A)) : list A :=
  match r with
  | Ok l => l
  | Throw _ => []
  end.

(** The number of iterations of the loop that get past the check of
    [listenerCancelled], out of at most [fuel], from iteration [i] on. *)
Fixpoint iterationsRun (listenerCancelled : nat -> bool) (fuel i : nat) : nat :=
  match fuel with
  | O => O
  | S fuel' =>
      if listenerCancelled i then O
      else S (iterationsRun listenerCancelled fuel' (S i))
  end.

(** The outputs the providers return to a session: the first successful
    answer, of at most two, to [fetchTXs], then each successful answer to
    [fetchUTXOs], one per iteration. *)
Definition discovered (env : Env) (address : string) (n : nat) : list UTXO.t :=
  match fetchTXs env n address with
  | Ok txs => txs
  | Throw _ => okOrEmpty (fetchTXs env (S n) address)
  end.

(** How many of the calls of [fetchUTXOs] made in [iterations] iterations
    fail. *)
Definition failedPolls (env : Env) (address : string) (n iterations : nat)
  : nat :=
  length (List.filter (fun j => negb (is_ok (fetchUTXOs env j address)))
            (seq n iterations)).

(** The calls of [fetchTXs] the first [try] block makes: a second one when
    the first fails. *)
Definition discoveryAttempts (env : Env) (address : string) (n : nat)
  : list Event :=
  FetchTXs address ::
  (if is_ok (fetchTXs env n address) then [] else [FetchTXs address]).

Definition polled (env : Env) (address : string) (n iterations : nat)
  : list UTXO.t :=
  flat_map (fun j => okOrEmpty (fetchUTXOs env j address))
    (seq n iterations).

(** ** Adapters over one network configuration *)

(** The adapters that can exist for a configuration: the ones the
    constructor returns for it, and the ones obtained from those by
    registering further providers. *)
Inductive ConfiguredWith (config : BitcoinNetworkConfig)
  : BitcoinBaseChain -> Prop :=
| Constructed cm input this :
    new_BitcoinBaseChain cm input = Ok this ->
    network this = config ->
    ConfiguredWith config this
| Registered this provider prio :
    ConfiguredWith config this ->
    ConfiguredWith config (withAPI this provider prio).

(** ** Example data *)

Module Example.

(** Stand-ins for the imported functions, for running the methods on
    concrete inputs. The address validator looks at the leading
    character only: [1], [3], [b] (mainnet) and [m], [n], [2], [t]
    (testnet). *)
Definition leading (address : string) (cs : list ascii) : bool :=
  match address with
  | String c _ => existsb (Ascii.eqb c) cs
  | "" => false
  end.

Definition validate (address asset networkType : string) : bool :=
  if String.eqb networkType "prod"
  then leading address ["1"; "3"; "b"]%char
  else if String.eqb networkType "testnet"
  then leading address ["m"; "n"; "2"; "t"]%char
  else false.

#[global] Instance imports : Imports := {|
  hash160 := fun b => b;
  createAddressBuffer := fun h g prefix => (prefix ++ h ++ g)%list;
  base58_encode := string_of_list_byte;
  fromHex := list_byte_of_string;
  fromBase64 := list_byte_of_string;
  toURLBase64 := string_of_list_byte;
  toHexString := string_of_list_byte;
  utils_validateAddress := validate;
  SECONDS := 1000;
|}.

Definition testnet : BitcoinNetworkConfig :=
  {| selector := "Bitcoin";
     nativeAsset := {| symbol := "BTC" |};
     isTestnet := true;
     p2shPrefix := [Byte.xc4];
     providers := [BitcoinAPI "blockstream"; BitcoinAPI "blockchair"] |}.

Definition mainnet : BitcoinNetworkConfig :=
  {| selector := "Bitcoin";
     nativeAsset := {| symbol := "BTC" |};
     isTestnet := false;
     p2shPrefix := [Byte.x05];
     providers := [BitcoinAPI "blockstream"] |}.

Definition networks : gmap string BitcoinNetworkConfig :=
  <["testnet" := testnet]> (<["mainnet" := mainnet]> ∅).

(** The adapters of a class whose configuration map is [networks], made
    from the configurations [testnet] and [mainnet], the fields written
    out. *)
Definition bitcoinTestnet : BitcoinBaseChain :=
  {| chain := "Bitcoin";
     configMap := networks;
     network := testnet;
     api :=
       [ {| provider := BitcoinAPI "blockstream"; priorityOption := 0 |};
         {| provider := BitcoinAPI "blockchair"; priorityOption := 0 |} ] |}.

Definition bitcoinMainnet : BitcoinBaseChain :=
  {| chain := "Bitcoin";
     configMap := networks;
     network := mainnet;
     api :=
       [ {| provider := BitcoinAPI "blockstream"; priorityOption := 0 |} ] |}.

Definition mainnetAddress : string := "1A1zP1eP5QGefi2DMPTfTL5SLmv7DivfNa".
Definition testnetAddress : string := "miMi2VET41YV1j6SDNTeZoPBbmH8B4nEx6".

(** An output mined at height 100. *)
Definition utxo : UTXO.t :=
  {| UTXO.txid := "abc"; UTXO.txindex := "0"; UTXO.amount := "100000";
     UTXO.height := Some 100 |}.

(** A pool whose [fetchTXs] is unavailable and whose [fetchUTXOs] answers
    every call with the same single output. *)
Definition sameOutput : Env :=
  {| fetchTXs := fun _ _ => Throw (ProviderFailure "unavailable");
     fetchUTXOs := fun _ _ => Ok [utxo];
     fetchUTXO := fun _ _ _ => Ok utxo;
     fetchHeight := fun _ => Ok 105 |}.

(** A pool whose [fetchUTXOs] fails on its first call only. *)
Definition failsOnce : Env :=
  {| fetchTXs := fun _ _ => Ok [];
     fetchUTXOs := fun n _ =>
       match n with
       | O => Throw (ProviderFailure "timeout")
       | S _ => Ok [utxo]
       end;
     fetchUTXO := fun _ _ _ => Ok utxo;
     fetchHeight := fun _ => Ok 105 |}.

(** A caller that cancels at its call number [k]. *)
Definition cancelAt (k : nat) : nat -> bool := fun i => (k <=? i)%nat.

(** The chain at heights 100, 100, 101, 103 on successive calls, and an
    output mined at height 99. *)
Definition mined99 : UTXO.t :=
  {| UTXO.txid := "abc"; UTXO.txindex := "0"; UTXO.amount := "100000";
     UTXO.height := Some 99 |}.

Definition heights : Env :=
  {| fetchTXs := fun _ _ => Ok [];
     fetchUTXOs := fun _ _ => Ok [];
     fetchUTXO := fun _ _ _ => Ok mined99;
     fetchHeight := fun n => Ok (nth n [100; 100; 101; 103] 103) |}.

Definition transaction : ChainTransaction.t :=
  {| ChainTransaction.txid := "abc"; ChainTransaction.txindex := "0" |}.

End Example.

(** ** More of the class *)

(** [BitcoinReleasePayload], and what [Address] returns:
    [{ chain, address }]. *)
Module Payload.
Record t := { chain : string; address : string }.
End Payload.

(** [Address(address)], for a string, which [assertType] lets through. *)
Definition Address (this : BitcoinBaseChain) (address : string) : Payload.t :=
  {| Payload.chain := chain this; Payload.address := address |}.

(** [burnPayload(burnPayloadConfig?)]: the result's [to], [undefined] when
    no configuration is given. *)
Definition burnPayload (burnPayloadConfig : option Payload.t) : option string :=
  match burnPayloadConfig with
  | Some config => Some (Payload.address config)
  | None => None
  end.

(** A deposit is a [ChainTransaction] with an amount; this is the deposit
    seen as a [ChainTransaction]. *)
Definition asChainTransaction (deposit : InputChainTransaction.t)
  : ChainTransaction.t :=
  {| ChainTransaction.txid := InputChainTransaction.txid deposit;
     ChainTransaction.txindex := InputChainTransaction.txindex deposit |}.

(** [validateTransaction(transaction)]. [isNaN txindex] stands for
    [new BigNumber(txindex).isNaN()]. *)
Definition validateTransaction `{Imports} (isNaN : string -> bool)
    (transaction : ChainTransaction.t) : bool :=
  (length (fromBase64 (ChainTransaction.txid transaction)) =? 32)%nat
  && negb (isNaN (ChainTransaction.txindex transaction)).

Definition isSleep (e : Event) : bool :=
  match e with Sleep _ => true | _ => false end.

(** What [createGatewayAddress] encodes. *)
Definition gatewayAddressOf `{Imports} (prefix shardPublicKey gHash : Buffer)
  : string :=
  base58_encode (createAddressBuffer (hash160 shardPublicKey) gHash prefix).

(** The call of [CombinedAPI] made by [withAPI(provider)]. *)
Definition registered (api : Provider) : Registration :=
  {| provider := api; priorityOption := 0 |}.

(** ** The testing environment

    The component [TestEnvironment]: the stage it keeps, what a click on
    a button does ([nextStage]) and which buttons are enabled. *)
Module TestEnvironment.

(** What [nextStage] does outside itself. *)
Inductive Effect : Type :=
| SetStage (stage : string)
| StartSwap (amount : string)
| Debug (tag stage : string)
| LogError.

(** The body of [case "confirming"], which [case "ready"] falls into. *)
Definition confirming : list Effect :=
  [Debug "test" "confirming"; SetStage "confirmed"].

(** [nextStage()] with the component at [stage]. [swapResolves] tells
    whether the promise of [startSwap] resolves; when it is rejected the
    rest of the [switch] is skipped and the error goes to
    [console.error]. *)
Definition nextStage (stage : string) (swapResolves : bool) : list Effect :=
  if String.eqb stage "ready" then
    SetStage "confirming" :: StartSwap "0.123"
      :: (if swapResolves then confirming else [LogError])
  else if String.eqb stage "confirming" then confirming
  else if String.eqb stage "confirmed" then
    [Debug "test" "confirmed"; SetStage "renvm-signed"]
  else if String.eqb stage "renvm-signed" then
    [Debug "test" "renvm-signed"; SetStage "submit-to-eth"]
  else if String.eqb stage "submit-to-eth" then
    [Debug "test" "submit-to-eth"; SetStage "eth-confirmed"]
  else if String.eqb stage "eth-confirmed" then
    [Debug "test" "eth-confirmed"; SetStage "ready"]
  else [].

(** The stage once the effects have run: that of the last [setStage]. *)
Fixpoint stageAfter (stage : string) (effects : list Effect) : string :=
  match effects with
  | [] => stage
  | SetStage stage' :: effects' => stageAfter stage' effects'
  | _ :: effects' => stageAfter stage effects'
  end.

(** A click whose swap, if any, goes through. *)
Definition click (stage : string) : string :=
  stageAfter stage (nextStage stage true).

(** The six buttons: the label and the stage at which the button is not
    disabled. *)
Definition buttons : list (string * string) :=
  [ ("1. open popup", "ready");
    ("2. confirming", "confirming");
    ("3. confirmed", "confirmed");
    ("4. renvm signed", "renvm-signed");
    ("5. submit to ethereum", "submit-to-eth");
    ("6. confirmed on ethereum", "eth-confirmed") ].

(** [disabled={stage !== ...}] *)
Definition disabled (stage : string) (button : string * string) : bool :=
  negb (String.eqb stage (snd button)).

Definition enabledButtons (stage : string) : list (string * string) :=
  List.filter (fun button => negb (disabled stage button)) buttons.

Definition stages : list string := map snd buttons.

Definition isDebug (e : Effect) : bool :=
  match e with Debug _ _ => true | _ => false end.

End TestEnvironment.

(** ** More example data *)

Module MoreExamples.

(** An output whose txid has 32 characters, one per byte for the
    stand-in codecs. *)
Definition utxo32 : UTXO.t :=
  {| UTXO.txid := "0123456789abcdef0123456789abcdef";
     UTXO.txindex := "1"; UTXO.amount := "5000";
     UTXO.height := Some 100 |}.

(** A stand-in for [new BigNumber(s).isNaN()]. *)
Definition isNaN (s : string) : bool :=
  match BigNumber.of_string s with
  | Some _ => false
  | None => true
  end.



(** A pool whose [fetchTXs] knows of one output. *)
Definition indexed : Env :=
  {| fetchTXs := fun _ _ => Ok [Example.utxo];
     fetchUTXOs := fun _ _ => Ok [];
     fetchUTXO := fun _ _ _ => Ok Example.utxo;
     fetchHeight := fun _ => Ok 105 |}.

(** A pool whose height is one block behind the output it reports. *)
Definition lagging : Env :=
  {| fetchTXs := fun _ _ => Ok [];
     fetchUTXOs := fun _ _ => Ok [];
     fetchUTXO := fun _ _ _ => Ok Example.utxo;
     fetchHeight := fun _ => Ok 99 |}.

(** The calls made before the fourth call of [transactionConfidence]. *)
Definition threeCalls : Calls :=
  {| nFetchTXs := 0; nFetchUTXOs := 0; nFetchUTXO := 3; nFetchHeight := 3 |}.



(** A configuration whose first provider comes with a priority of its
    own. *)
Definition withFallback : BitcoinNetworkConfig :=
  {| selector := "Bitcoin";
     nativeAsset := {| symbol := "BTC" |};
     isTestnet := true;
     p2shPrefix := [Byte.xc4];
     providers := [ Prioritised {| endpoint := "electrumx"; priority := 20 |};
                    BitcoinAPI "blockstream" ] |}.

End MoreExamples.

(** * Properties *)

(** ** Construction *)

Lemma fold_withAPI_fields (ps : list Provider) (this : BitcoinBaseChain) :
  let this' := fold_left (fun t p => withAPI t p 0) ps this in
  network this' = network this /\ chain this' = chain this
  /\ configMap this' = configMap this.
Proof.
  revert this. induction ps as [|p ps IH]; intros this; simpl.
  - auto.
  - destruct (IH (withAPI this p 0)) as (Hn & Hc & Hm). auto.
Qed.

Lemma configure_fields cm config :
  network (configure cm config) = config
  /\ chain (configure cm config) = selector config
  /\ configMap (configure cm config) = cm.
Proof.
  unfold configure.
  apply (fold_withAPI_fields (providers config)
    {| chain := selector config; configMap := cm; network := config;
       api := [] |}).
Qed.

Lemma getProperty_own cm key config :
  getProperty cm key = OwnProperty config <-> cm !! key = Some config.
Proof.
  unfold getProperty. destruct (cm !! key) as [c|].
  - split; intros [= ->]; reflexivity.
  - split; [destruct (isInherited key)|]; discriminate.
Qed.

Lemma getProperty_empty key :
  getProperty ∅ key
  = if isInherited key then InheritedProperty else Undefined.
Proof. unfold getProperty. rewrite lookup_empty. reflexivity. Qed.

Lemma new_BitcoinBaseChain_Ok cm input this :
  new_BitcoinBaseChain cm input = Ok this ->
  chain this = selector (network this) /\
  (isBitcoinNetworkConfig input = Some (network this) \/
   isBitcoinNetworkConfig input = None /\
   cm !! propertyKey input = Some (network this)).
Proof.
  unfold new_BitcoinBaseChain.
  destruct (isBitcoinNetworkConfig input) as [c|] eqn:Hc.
  - intros [= <-]. destruct (configure_fields cm c) as (Hn & Hch & _).
    rewrite Hn, Hch. auto.
  - destruct (getProperty cm (propertyKey input)) as [c| |] eqn:Hl.
    + intros [= <-]. destruct (configure_fields cm c) as (Hn & Hch & _).
      rewrite Hn, Hch. apply getProperty_own in Hl. auto.
    + discriminate.
    + destruct (isString input); discriminate.
Qed.

(** C9 fails on the code. The constructor looks the input up in
    [this.configMap] when that field is still the empty object its
    initialiser has just made, so no selector is ever resolved:
    construction succeeds exactly when the input is a configuration
    object, and then [network] is that configuration and [chain] its
    selector. Every selector string is refused, with the unknown-network
    error, also one that is a key of the adapter's configuration map. The
    names every object inherits ([constructor], [toString], ...) are
    found by the lookup instead: for them construction ends in a
    [TypeError], whether the input is a string or not, and not in the
    error the claim names. The body does resolve a key of the map it
    reads: run with a map that has the key, it succeeds with the
    configuration found there. *)
Theorem constructor_resolves_no_selector (input : BitcoinNetworkInput) :
  (is_ok (construct input) = true
   <-> exists config, input = NetworkConfig config)
  /\ (forall s, input = NetworkSelector s ->
        construct input
        = Throw (if isInherited s then notIterable else UnknownNetwork s))
  /\ (forall key, input = NetworkObject key ->
        construct input
        = Throw (if isInherited key then notIterable
                 else InvalidNetworkConfig))
  /\ (forall this, construct input = Ok this ->
        input = NetworkConfig (network this)
        /\ chain this = selector (network this))
  /\ (forall cm config,
        isBitcoinNetworkConfig input = None ->
        cm !! propertyKey input = Some config ->
        exists this,
          new_BitcoinBaseChain cm input = Ok this /\ network this = config).
Proof.
  unfold construct.
  split; [|split; [|split; [|split]]].
  - unfold new_BitcoinBaseChain. destruct input as [s|config|key]; simpl.
    + rewrite getProperty_empty.
      split; [destruct (isInherited s); discriminate|].
      intros [config [=]].
    + split; [eauto|reflexivity].
    + rewrite getProperty_empty.
      split; [destruct (isInherited key); discriminate|].
      intros [config [=]].
  - intros s ->. unfold new_BitcoinBaseChain. simpl.
    rewrite getProperty_empty. destruct (isInherited s); reflexivity.
  - intros key ->. unfold new_BitcoinBaseChain. simpl.
    rewrite getProperty_empty. destruct (isInherited key); reflexivity.
  - intros this Hok.
    destruct (new_BitcoinBaseChain_Ok ∅ input this Hok) as [Hch Hin].
    split; [|exact Hch].
    destruct Hin as [Hconfig|[_ Hl]].
    + destruct input; simpl in Hconfig; congruence.
    + rewrite lookup_empty in Hl. discriminate.
  - intros cm config Hnone Hl. unfold new_BitcoinBaseChain.
    rewrite Hnone. apply getProperty_own in Hl. rewrite Hl.
    eexists. split; [reflexivity|].
    apply (proj1 (configure_fields cm config)).
Qed.

Lemma constructor_resolves_no_selector_witness :
  Example.networks !! "testnet" = Some Example.testnet
  /\ construct (NetworkSelector "testnet") = Throw (UnknownNetwork "testnet")
  /\ construct (NetworkSelector "constructor") = Throw notIterable
  /\ exists this,
       new_BitcoinBaseChain Example.networks (NetworkSelector "testnet")
       = Ok this
       /\ network this = Example.testnet.
Proof.
  split; [reflexivity|split; [|split]].
  - apply (proj1 (proj2 (constructor_resolves_no_selector
                           (NetworkSelector "testnet"))) "testnet").
    reflexivity.
  - apply (proj1 (proj2 (constructor_resolves_no_selector
                           (NetworkSelector "constructor"))) "constructor").
    reflexivity.
  - apply (proj2 (proj2 (proj2 (proj2 (constructor_resolves_no_selector
                                         (NetworkSelector "testnet")))))
             Example.networks Example.testnet); reflexivity.
Defined.

(** ** The asset guard *)

Section Guard.
Context `{Imports}.
Variable this : BitcoinBaseChain.

Lemma assertAssetIsSupported_Throw asset :
  assetIsNative this asset = false ->
  assertAssetIsSupported this asset
    = Throw (UnsupportedAsset asset (chain this)).
Proof. unfold assertAssetIsSupported. intros ->. reflexivity. Qed.

Lemma assertAssetIsSupported_Ok asset :
  assetIsNative this asset = true ->
  assertAssetIsSupported this asset = Ok tt.
Proof. unfold assertAssetIsSupported. intros ->. reflexivity. Qed.

(** C5, as the code has it. For an asset other than the native one,
    [getOutputPayload], [getBalance], [isDepositAsset] and [assetDecimals]
    fail with the unsupported-asset error. [createGatewayAddress] and
    [watchForDeposits] fail too, before any call is made outside: with
    the unsupported-asset error when the payload's chain is the
    adapter's, and with the invalid-payload error, which is checked
    first, when it is not. *)
Theorem unsupported_asset_fails (asset : string) :
  assetIsNative this asset = false ->
  let unsupported := UnsupportedAsset asset (chain this) in
  (forall toAddress, getOutputPayload this asset toAddress = Throw unsupported)
  /\ (forall address, getBalance this asset address = Throw unsupported)
  /\ isDepositAsset this asset = Throw unsupported
  /\ assetDecimals this asset = Throw unsupported
  /\ (forall payloadChain shardPublicKey gHash,
        createGatewayAddress this asset payloadChain shardPublicKey gHash
        = if String.eqb payloadChain (chain this)
          then Throw unsupported
          else Throw (InvalidPayload payloadChain (chain this)))
  /\ (forall env payloadChain address listenerCancelled fuel calls,
        watchForDeposits this env asset payloadChain address
          listenerCancelled fuel calls
        = ([], Rejected
                 (if String.eqb payloadChain (chain this)
                  then unsupported
                  else InvalidPayload payloadChain (chain this)))).
Proof.
  intros Hasset unsupported.
  pose proof (assertAssetIsSupported_Throw asset Hasset) as Hguard.
  unfold getOutputPayload, getBalance, isDepositAsset, assetDecimals,
    createGatewayAddress, watchForDeposits.
  rewrite Hguard. simpl.
  repeat (split; [intros; reflexivity|]); try reflexivity.
  - split.
    + intros payloadChain ? ?.
      destruct (String.eqb payloadChain (chain this)); reflexivity.
    + intros env payloadChain ? ? ? ?.
      destruct (String.eqb payloadChain (chain this)); reflexivity.
Qed.

(** C10. For a supported asset and an address that [validateAddress]
    accepts, [getBalance] returns 0; no provider is asked. *)
Theorem getBalance_zero (asset address : string) :
  assetIsSupported this asset = true ->
  validateAddress this address = true ->
  getBalance this asset address = Ok (BigNumber.of_Z 0).
Proof.
  intros Hasset Haddr. unfold getBalance.
  rewrite (assertAssetIsSupported_Ok asset Hasset). simpl.
  rewrite Haddr. reflexivity.
Qed.

(** [validateAddress] checks against the mainnet formats exactly when
    the network is a test network. *)
Lemma validateAddress_networkType address :
  validateAddress this address
  = utils_validateAddress address (symbol (nativeAsset (network this)))
      (if isTestnet (network this) then "prod" else "testnet").
Proof. reflexivity. Qed.

End Guard.

Lemma unsupported_asset_fails_witness :
  getBalance Example.bitcoinTestnet "ETH" Example.testnetAddress
    = Throw (UnsupportedAsset "ETH" "Bitcoin")
  /\ createGatewayAddress Example.bitcoinTestnet "ETH" "Bitcoin" [] []
    = Throw (UnsupportedAsset "ETH" "Bitcoin").
Proof.
  pose proof (unsupported_asset_fails Example.bitcoinTestnet "ETH" eq_refl)
    as (_ & Hbalance & _ & _ & Hgateway & _).
  split.
  - apply Hbalance.
  - apply (Hgateway "Bitcoin" [] []).
Defined.

(** C5 as stated does not hold: with a payload for another chain,
    [createGatewayAddress] (and [watchForDeposits]) fail for an unsupported
    asset with the invalid-payload error, not the unsupported-asset one. *)
Lemma unsupported_asset_other_error :
  assetIsNative Example.bitcoinTestnet "ETH" = false
  /\ createGatewayAddress Example.bitcoinTestnet "ETH" "Ethereum" [] []
     = Throw (InvalidPayload "Ethereum" "Bitcoin")
  /\ ~ (exists c, createGatewayAddress Example.bitcoinTestnet
                    "ETH" "Ethereum" [] []
                  = Throw (UnsupportedAsset "ETH" c))
  /\ forall c, message (InvalidPayload "Ethereum" "Bitcoin")
               <> message (UnsupportedAsset "ETH" c).
Proof.
  split; [reflexivity|]. split; [reflexivity|]. split.
  - intros [c Hc]. discriminate Hc.
  - intros c Hc. vm_compute in Hc. discriminate Hc.
Qed.

Lemma getBalance_zero_witness :
  getBalance Example.bitcoinTestnet "BTC" Example.mainnetAddress
  = Ok (BigNumber.of_Z 0).
Proof.
  apply (getBalance_zero Example.bitcoinTestnet "BTC" Example.mainnetAddress);
    reflexivity.
Defined.

(** ** Address validation *)

(** C4 fails on the code: the network type handed to the validator is the
    opposite of the configured one, so an adapter configured for a test
    network accepts an address that is valid on mainnet only (and one
    configured for mainnet accepts a testnet-only address). *)
Theorem validateAddress_accepts_other_network `{Imports}
    (this : BitcoinBaseChain) (address : string) :
  let asset := symbol (nativeAsset (network this)) in
  let configured := if isTestnet (network this) then "testnet" else "prod" in
  let other := if isTestnet (network this) then "prod" else "testnet" in
  utils_validateAddress address asset other = true ->
  utils_validateAddress address asset configured = false ->
  validateAddress this address = true.
Proof.
  intros asset configured other Hother _.
  rewrite validateAddress_networkType. exact Hother.
Qed.

Lemma validateAddress_accepts_other_network_witness :
  validateAddress Example.bitcoinTestnet Example.mainnetAddress = true
  /\ validateAddress Example.bitcoinMainnet Example.testnetAddress = true.
Proof.
  split.
  - apply (validateAddress_accepts_other_network
             Example.bitcoinTestnet Example.mainnetAddress); reflexivity.
  - apply (validateAddress_accepts_other_network
             Example.bitcoinMainnet Example.testnetAddress); reflexivity.
Defined.

(** ** Gateway addresses *)

Lemma ConfiguredWith_fields config this :
  ConfiguredWith config this ->
  network this = config /\ chain this = selector config.
Proof.
  induction 1 as [cm input this Hnew Hnet | this provider prio _ IH].
  - destruct (new_BitcoinBaseChain_Ok cm input this Hnew) as [Hchain _].
    split; [assumption|]. rewrite Hchain, Hnet. reflexivity.
  - exact IH.
Qed.

(** C1. The gateway address is a function of the network configuration
    and the four arguments alone: any two adapters over the same
    configuration, whichever way they were constructed and whatever
    providers were registered with them since, return the same result for
    the same arguments. No provider is asked. *)
Theorem createGatewayAddress_deterministic `{Imports}
    (config : BitcoinNetworkConfig) (this1 this2 : BitcoinBaseChain)
    (asset payloadChain : string) (shardPublicKey gHash : Buffer) :
  ConfiguredWith config this1 ->
  ConfiguredWith config this2 ->
  createGatewayAddress this1 asset payloadChain shardPublicKey gHash
  = createGatewayAddress this2 asset payloadChain shardPublicKey gHash.
Proof.
  intros H1 H2.
  destruct (ConfiguredWith_fields config this1 H1) as [Hn1 Hc1].
  destruct (ConfiguredWith_fields config this2 H2) as [Hn2 Hc2].
  unfold createGatewayAddress, assertAssetIsSupported, assetIsNative.
  rewrite Hn1, Hn2, Hc1, Hc2. reflexivity.
Qed.

Lemma createGatewayAddress_deterministic_witness :
  createGatewayAddress Example.bitcoinTestnet "BTC" "Bitcoin"
    [Byte.x02; Byte.x03] [Byte.xaa]
  = createGatewayAddress
      (withAPI Example.bitcoinTestnet (BitcoinAPI "sochain") 1) "BTC" "Bitcoin"
      [Byte.x02; Byte.x03] [Byte.xaa].
Proof.
  apply (createGatewayAddress_deterministic Example.testnet).
  - apply (Constructed Example.testnet Example.networks
             (NetworkConfig Example.testnet)); reflexivity.
  - apply Registered.
    apply (Constructed Example.testnet Example.networks
             (NetworkConfig Example.testnet));
      reflexivity.
Defined.

(** ** Watching for deposits *)

Lemma handlerCalls_app (a b : list Event) :
  handlerCalls (a ++ b) = (handlerCalls a ++ handlerCalls b)%list.
Proof.
  induction a as [|e a IH]; simpl; [reflexivity|].
  destruct e; simpl; rewrite IH; reflexivity.
Qed.

Lemma cancelAnswers_app (a b : list Event) :
  cancelAnswers (a ++ b) = (cancelAnswers a ++ cancelAnswers b)%list.
Proof.
  induction a as [|e a IH]; simpl; [reflexivity|].
  destruct e; simpl; rewrite IH; reflexivity.
Qed.

Section Watch.
Context `{Imports}.
Variable env : Env.
Variable address : string.
Variable listenerCancelled : nat -> bool.

Lemma handlerCalls_reportDeposits txs :
  handlerCalls (reportDeposits txs) = map toDeposit txs.
Proof. induction txs as [|tx txs IH]; simpl; [|rewrite IH]; reflexivity. Qed.

Lemma cancelAnswers_reportDeposits txs :
  cancelAnswers (reportDeposits txs) = [].
Proof. induction txs as [|tx txs IH]; simpl; auto. Qed.

Lemma attemptsBeforeLog_reportDeposits txs rest k :
  attemptsBeforeLog (reportDeposits txs ++ rest) k
  = attemptsBeforeLog rest k.
Proof. induction txs as [|tx txs IH]; simpl; auto. Qed.

Lemma filter_reportDeposits (f : Event -> bool) txs :
  (forall d, f (OnDeposit d) = false) ->
  List.filter f (reportDeposits txs) = [].
Proof.
  intros Hf. induction txs as [|tx txs IH]; simpl; [reflexivity|].
  rewrite Hf. exact IH.
Qed.

(** One iteration of the loop, unfolded. *)
Lemma pollingLoop_S fuel i n :
  pollingLoop env address listenerCancelled (S fuel) i n
  = if listenerCancelled i
    then ([ListenerCancelled true], Returned)
    else
      let body :=
        match fetchUTXOs env n address with
        | Ok utxos => FetchUTXOs address :: reportDeposits utxos
        | Throw error => [FetchUTXOs address; ConsoleError error]
        end in
      let next :=
        pollingLoop env address listenerCancelled fuel (S i) (S n) in
      ((ListenerCancelled false :: body
          ++ Sleep (15 * SECONDS) :: fst next)%list,
       snd next).
Proof.
  simpl. destruct (listenerCancelled i); [reflexivity|].
  destruct (pollingLoop env address listenerCancelled fuel (S i) (S n)).
  reflexivity.
Qed.

Lemma pollingLoop_handlerCalls fuel i n :
  handlerCalls (fst (pollingLoop env address listenerCancelled fuel i n))
  = map toDeposit
      (polled env address n (iterationsRun listenerCancelled fuel i)).
Proof.
  revert i n. induction fuel as [|fuel IH]; intros i n.
  - reflexivity.
  - rewrite pollingLoop_S. simpl iterationsRun.
    destruct (listenerCancelled i); [reflexivity|].
    cbv zeta. unfold polled. simpl. rewrite map_app.
    fold (polled env address (S n)
            (iterationsRun listenerCancelled fuel (S i))).
    rewrite <- IH.
    destruct (fetchUTXOs env n address) as [utxos|e]; simpl.
    + rewrite handlerCalls_app, handlerCalls_reportDeposits. reflexivity.
    + reflexivity.
Qed.

Lemma pollingLoop_cancelAnswers fuel i n :
  let run := pollingLoop env address listenerCancelled fuel i n in
  cancelAnswers (fst run)
  = (repeat false (iterationsRun listenerCancelled fuel i)
     ++ match snd run with Returned => [true] | _ => [] end)%list.
Proof.
  revert i n. induction fuel as [|fuel IH]; intros i n.
  - reflexivity.
  - cbv zeta. rewrite pollingLoop_S. simpl iterationsRun.
    destruct (listenerCancelled i); [reflexivity|].
    cbv zeta. simpl. rewrite <- IH.
    destruct (fetchUTXOs env n address) as [utxos|e]; simpl.
    + rewrite cancelAnswers_app, cancelAnswers_reportDeposits. reflexivity.
    + reflexivity.
Qed.

Lemma pollingLoop_fetches fuel i n :
  length (List.filter isFetchUTXOs
            (fst (pollingLoop env address listenerCancelled fuel i n)))
  = iterationsRun listenerCancelled fuel i.
Proof.
  revert i n. induction fuel as [|fuel IH]; intros i n.
  - reflexivity.
  - rewrite pollingLoop_S. simpl iterationsRun.
    destruct (listenerCancelled i); [reflexivity|].
    cbv zeta. simpl. rewrite List.filter_app. simpl.
    rewrite length_app, IH.
    destruct (fetchUTXOs env n address) as [utxos|e]; simpl.
    + rewrite filter_reportDeposits by reflexivity. reflexivity.
    + reflexivity.
Qed.

Lemma pollingLoop_errors fuel i n :
  length (List.filter isConsoleError
            (fst (pollingLoop env address listenerCancelled fuel i n)))
  = failedPolls env address n (iterationsRun listenerCancelled fuel i).
Proof.
  revert i n. induction fuel as [|fuel IH]; intros i n.
  - reflexivity.
  - rewrite pollingLoop_S. simpl iterationsRun.
    destruct (listenerCancelled i); [reflexivity|].
    cbv zeta. unfold failedPolls. simpl. rewrite List.filter_app. simpl.
    rewrite length_app, IH. unfold failedPolls.
    destruct (fetchUTXOs env n address) as [utxos|e]; simpl.
    + rewrite filter_reportDeposits by reflexivity. reflexivity.
    + reflexivity.
Qed.

Lemma pollingLoop_attempts fuel i n k :
  Forall (fun attempts => attempts = 1%nat)
    (attemptsBeforeLog
       (fst (pollingLoop env address listenerCancelled fuel i n)) k).
Proof.
  revert i n k. induction fuel as [|fuel IH]; intros i n k.
  - constructor.
  - rewrite pollingLoop_S.
    destruct (listenerCancelled i); [constructor|].
    cbv zeta. simpl.
    destruct (fetchUTXOs env n address) as [utxos|e]; simpl.
    + rewrite attemptsBeforeLog_reportDeposits. simpl. apply IH.
    + constructor; [reflexivity|]. apply IH.
Qed.

Lemma pollingLoop_not_Rejected fuel i n e :
  snd (pollingLoop env address listenerCancelled fuel i n) <> Rejected e.
Proof.
  revert i n. induction fuel as [|fuel IH]; intros i n.
  - discriminate.
  - rewrite pollingLoop_S.
    destruct (listenerCancelled i); [discriminate|]. apply IH.
Qed.

Lemma pollingLoop_Returned fuel i n :
  snd (pollingLoop env address listenerCancelled fuel i n) = Returned
  <-> exists k, (i <= k < i + fuel)%nat /\ listenerCancelled k = true.
Proof.
  revert i n. induction fuel as [|fuel IH]; intros i n.
  - simpl. split; [discriminate|]. intros (k & Hk & _). lia.
  - rewrite pollingLoop_S.
    destruct (listenerCancelled i) eqn:Hi.
    + split; [|reflexivity]. intros _. exists i. split; [lia|assumption].
    + cbv zeta. simpl. rewrite IH. split.
      * intros (k & Hk & Hc). exists k. split; [lia|assumption].
      * intros (k & Hk & Hc). exists k. split; [|assumption].
        destruct (Nat.eq_dec k i) as [->|]; [congruence|lia].
Qed.

Lemma pollingLoop_Pending fuel i n :
  snd (pollingLoop env address listenerCancelled fuel i n) = Pending
  <-> forall k, (i <= k < i + fuel)%nat -> listenerCancelled k = false.
Proof.
  revert i n. induction fuel as [|fuel IH]; intros i n.
  - simpl. split; [|reflexivity]. intros _ k Hk. lia.
  - rewrite pollingLoop_S.
    destruct (listenerCancelled i) eqn:Hi.
    + split; [discriminate|]. intros Hall.
      rewrite (Hall i) in Hi by lia. discriminate.
    + cbv zeta. simpl. rewrite IH. split.
      * intros Hall k Hk.
        destruct (Nat.eq_dec k i) as [->|]; [assumption|apply Hall; lia].
      * intros Hall k Hk. apply Hall. lia.
Qed.

Lemma pollingLoop_cancelled_in fuel i n :
  snd (pollingLoop env address listenerCancelled fuel i n) = Returned
  <-> In (ListenerCancelled true)
        (fst (pollingLoop env address listenerCancelled fuel i n)).
Proof.
  revert i n. induction fuel as [|fuel IH]; intros i n.
  - simpl. split; [discriminate|tauto].
  - rewrite pollingLoop_S.
    destruct (listenerCancelled i) eqn:Hi.
    + simpl. split; auto.
    + cbv zeta. simpl. rewrite IH. split.
      * intros Hin. right. apply in_or_app. right. right. exact Hin.
      * intros [Habs|Hin]; [discriminate|].
        apply in_app_or in Hin. destruct Hin as [Hin|[Habs|Hin]].
        -- destruct (fetchUTXOs env n address) as [utxos|e].
           ++ destruct Hin as [Habs|Hin]; [discriminate|].
              unfold reportDeposits in Hin. apply in_map_iff in Hin.
              destruct Hin as (? & Habs & _). discriminate.
           ++ destruct Hin as [Habs|[Habs|[]]]; discriminate.
        -- discriminate.
        -- exact Hin.
Qed.

End Watch.

Section Session.
Context `{Imports}.
Variable this : BitcoinBaseChain.
Variable env : Env.
Variables asset payloadChain address : string.
Variable listenerCancelled : nat -> bool.
Variable calls : Calls.

Hypothesis payload_for_this_chain :
  String.eqb payloadChain (chain this) = true.
Hypothesis asset_supported : assetIsSupported this asset = true.

(** Past its two guards, a session is the first [try] block followed by
    the loop. *)
Lemma watchForDeposits_run fuel :
  watchForDeposits this env asset payloadChain address
    listenerCancelled fuel calls
  = ((discoveryAttempts env address (nFetchTXs calls)
      ++ reportDeposits (discovered env address (nFetchTXs calls))
      ++ fst (pollingLoop env address listenerCancelled fuel 0
                (nFetchUTXOs calls)))%list,
     snd (pollingLoop env address listenerCancelled fuel 0
            (nFetchUTXOs calls))).
Proof.
  unfold watchForDeposits, discoveryAttempts, discovered.
  rewrite payload_for_this_chain.
  rewrite (assertAssetIsSupported_Ok this asset asset_supported).
  simpl negb. cbv iota. unfold tryNTimes. simpl tryNTimes_from.
  destruct (pollingLoop env address listenerCancelled fuel 0
              (nFetchUTXOs calls)) as [rest outcome].
  destruct (fetchTXs env (nFetchTXs calls) address) as [txs|e1];
    [reflexivity|].
  destruct (fetchTXs env (S (nFetchTXs calls)) address) as [txs|e2];
    reflexivity.
Qed.

Lemma discovery_quiet (rest : list Event) :
  let events :=
    (discoveryAttempts env address (nFetchTXs calls)
     ++ reportDeposits (discovered env address (nFetchTXs calls))
     ++ rest)%list in
  cancelAnswers events = cancelAnswers rest
  /\ List.filter isFetchUTXOs events = List.filter isFetchUTXOs rest
  /\ List.filter isConsoleError events = List.filter isConsoleError rest
  /\ List.filter isFetchTXs events
     = (discoveryAttempts env address (nFetchTXs calls)
        ++ List.filter isFetchTXs rest)%list
  /\ forall k, attemptsBeforeLog events k = attemptsBeforeLog rest k.
Proof.
  unfold discoveryAttempts.
  destruct (is_ok (fetchTXs env (nFetchTXs calls) address)); simpl;
    rewrite ?cancelAnswers_app, ?cancelAnswers_reportDeposits,
      ?List.filter_app, ?filter_reportDeposits by reflexivity;
    repeat split; try reflexivity;
    intros k; apply attemptsBeforeLog_reportDeposits.
Qed.

(** C2, as the code has it. The handler is called once for every output
    the providers return to the session, in the order returned, repeats
    included: first for the outputs of the first successful [fetchTXs],
    then, iteration by iteration, for those of each successful
    [fetchUTXOs]. Nothing is remembered between polls. *)
Theorem onDeposit_for_every_polled_output (fuel : nat) :
  handlerCalls
    (fst (watchForDeposits this env asset payloadChain address
            listenerCancelled fuel calls))
  = map toDeposit
      (discovered env address (nFetchTXs calls)
       ++ polled env address (nFetchUTXOs calls)
            (iterationsRun listenerCancelled fuel 0)).
Proof.
  rewrite watchForDeposits_run. cbn [fst].
  unfold discoveryAttempts.
  rewrite map_app, <- pollingLoop_handlerCalls.
  destruct (is_ok (fetchTXs env (nFetchTXs calls) address)); simpl;
    rewrite handlerCalls_app, handlerCalls_reportDeposits; reflexivity.
Qed.

(** C7. Past the guards, a session returns if and only if
    [listenerCancelled] answers [true]: at the first such answer, and
    with any providers, failing or not. The predicate is asked once at
    the top of each iteration, before that iteration's [fetchUTXOs]; as
    long as it answers [false] the session is pending; it is never
    rejected, and each failed [fetchUTXOs] is logged. *)
Theorem watchForDeposits_returns_iff_cancelled :
  ((exists fuel,
      snd (watchForDeposits this env asset payloadChain address
             listenerCancelled fuel calls) = Returned)
   <-> exists k, listenerCancelled k = true)
  /\ forall fuel,
       let session :=
         watchForDeposits this env asset payloadChain address
           listenerCancelled fuel calls in
       (snd session = Returned
        <-> exists k, (k < fuel)%nat /\ listenerCancelled k = true)
       /\ (snd session = Pending
           <-> forall k, (k < fuel)%nat -> listenerCancelled k = false)
       /\ (forall e, snd session <> Rejected e)
       /\ cancelAnswers (fst session)
          = (repeat false (iterationsRun listenerCancelled fuel 0)
             ++ match snd session with Returned => [true] | _ => [] end)%list
       /\ length (List.filter isFetchUTXOs (fst session))
          = iterationsRun listenerCancelled fuel 0
       /\ length (List.filter isConsoleError (fst session))
          = failedPolls env address (nFetchUTXOs calls)
              (iterationsRun listenerCancelled fuel 0).
Proof.
  assert (Hbounded : forall fuel,
    snd (watchForDeposits this env asset payloadChain address
           listenerCancelled fuel calls) = Returned
    <-> exists k, (k < fuel)%nat /\ listenerCancelled k = true).
  { intros fuel. rewrite watchForDeposits_run. cbn [snd].
    rewrite pollingLoop_Returned. split.
    - intros (k & Hk & Hc). exists k. split; [lia|assumption].
    - intros (k & Hk & Hc). exists k. split; [lia|assumption]. }
  split.
  - split.
    + intros (fuel & Hret). apply Hbounded in Hret.
      destruct Hret as (k & _ & Hc). exists k. exact Hc.
    + intros (k & Hc). exists (S k). apply Hbounded.
      exists k. split; [lia|assumption].
  - intros fuel session. split; [apply Hbounded|].
    subst session. rewrite watchForDeposits_run. cbn [fst snd].
    destruct (discovery_quiet
                (fst (pollingLoop env address listenerCancelled fuel 0
                        (nFetchUTXOs calls))))
      as (Hcancel & Hfetch & Herrors & _ & _).
    split; [|split; [|split; [|split]]].
    + rewrite pollingLoop_Pending. split.
      * intros Hall k Hk. apply Hall. lia.
      * intros Hall k Hk. apply Hall. lia.
    + intros e. apply pollingLoop_not_Rejected.
    + rewrite Hcancel. apply pollingLoop_cancelAnswers.
    + rewrite Hfetch. apply pollingLoop_fetches.
    + rewrite Herrors. apply pollingLoop_errors.
Qed.

(** The first [try] block calls [fetchTXs] once, and once more when that
    call fails; the loop never calls it. *)
Lemma fetchTXs_tried_twice (fuel : nat) :
  List.filter isFetchTXs
    (fst (watchForDeposits this env asset payloadChain address
            listenerCancelled fuel calls))
  = FetchTXs address ::
    (if is_ok (fetchTXs env (nFetchTXs calls) address) then []
     else [FetchTXs address]).
Proof.
  rewrite watchForDeposits_run. cbn [fst].
  destruct (discovery_quiet
              (fst (pollingLoop env address listenerCancelled fuel 0
                      (nFetchUTXOs calls))))
    as (_ & _ & _ & Htxs & _).
  rewrite Htxs.
  assert (Hnone : forall fuel i n,
    List.filter isFetchTXs
      (fst (pollingLoop env address listenerCancelled fuel i n)) = []).
  { clear. intros fuel. induction fuel as [|fuel IH]; intros i n.
    - reflexivity.
    - rewrite pollingLoop_S.
      destruct (listenerCancelled i); [reflexivity|].
      cbv zeta. simpl. rewrite List.filter_app. simpl. rewrite IH.
      destruct (fetchUTXOs env n address); simpl;
        rewrite ?filter_reportDeposits by reflexivity; reflexivity. }
  rewrite Hnone, app_nil_r. reflexivity.
Qed.

(** C8, as the code has it. In the loop [fetchUTXOs] is called once per
    iteration; when the call fails the error is logged after that single
    attempt, once, and the loop goes on: the number of iterations run does
    not depend on what the providers answer. *)
Theorem fetchUTXOs_attempted_once (fuel : nat) :
  let events :=
    fst (watchForDeposits this env asset payloadChain address
           listenerCancelled fuel calls) in
  let iterations := iterationsRun listenerCancelled fuel 0 in
  length (List.filter isFetchUTXOs events) = iterations
  /\ Forall (fun attempts => attempts = 1%nat) (attemptsBeforeLog events 0)
  /\ length (List.filter isConsoleError events)
     = failedPolls env address (nFetchUTXOs calls) iterations.
Proof.
  intros events iterations. subst events iterations.
  rewrite watchForDeposits_run. cbn [fst].
  destruct (discovery_quiet
              (fst (pollingLoop env address listenerCancelled fuel 0
                      (nFetchUTXOs calls))))
    as (_ & Hfetch & Herrors & _ & Hattempts).
  split; [|split].
  - rewrite Hfetch. apply pollingLoop_fetches.
  - rewrite Hattempts. apply pollingLoop_attempts.
  - rewrite Herrors. apply pollingLoop_errors.
Qed.

End Session.

(** Whatever the arguments, a session returns exactly when the caller's
    predicate has answered [true], and it is rejected only by one of its
    two guards, before anything is called outside. *)
Lemma watchForDeposits_outcome `{Imports} this env asset payloadChain
    address listenerCancelled fuel calls :
  let session :=
    watchForDeposits this env asset payloadChain address
      listenerCancelled fuel calls in
  (snd session = Returned <-> In (ListenerCancelled true) (fst session))
  /\ forall e, snd session = Rejected e ->
       fst session = []
       /\ (e = InvalidPayload payloadChain (chain this)
           \/ e = UnsupportedAsset asset (chain this)).
Proof.
  cbv zeta.
  destruct (String.eqb payloadChain (chain this)) eqn:Hpayload.
  - destruct (assetIsNative this asset) eqn:Hasset.
    + rewrite (watchForDeposits_run this env asset payloadChain address
                 listenerCancelled calls Hpayload Hasset).
      cbn [fst snd]. split.
      * rewrite pollingLoop_cancelled_in. unfold discoveryAttempts.
        rewrite !in_app_iff. split; [auto|].
        intros [Hin|[Hin|Hin]]; [| |exact Hin].
        -- destruct (is_ok (fetchTXs env (nFetchTXs calls) address));
             simpl in Hin; intuition discriminate.
        -- unfold reportDeposits in Hin. apply in_map_iff in Hin.
           destruct Hin as (? & Habs & _). discriminate.
      * intros e He. apply pollingLoop_not_Rejected in He. contradiction.
    + unfold watchForDeposits. rewrite Hpayload.
      rewrite (assertAssetIsSupported_Throw this asset Hasset). simpl.
      split; [split; [discriminate|tauto]|].
      intros e [= <-]. auto.
  - unfold watchForDeposits. rewrite Hpayload. simpl.
    split; [split; [discriminate|tauto]|].
    intros e [= <-]. auto.
Qed.

Lemma onDeposit_for_every_polled_output_witness :
  handlerCalls
    (fst (watchForDeposits Example.bitcoinTestnet Example.sameOutput
            "BTC" "Bitcoin" "2N1" (Example.cancelAt 2) 3 noCalls))
  = map toDeposit [Example.utxo; Example.utxo].
Proof.
  exact (onDeposit_for_every_polled_output
           Example.bitcoinTestnet Example.sameOutput "BTC" "Bitcoin" "2N1"
           (Example.cancelAt 2) noCalls eq_refl eq_refl 3).
Defined.

(** C2 as stated does not hold: when two polls return the same output, the
    handler is called for it twice. *)
Lemma onDeposit_called_twice :
  ~ NoDup
      (map depositKey
         (handlerCalls
            (fst (watchForDeposits Example.bitcoinTestnet Example.sameOutput
                    "BTC" "Bitcoin" "2N1" (Example.cancelAt 2) 3 noCalls)))).
Proof.
  vm_compute. intros Hnodup.
  apply NoDup_cons in Hnodup. destruct Hnodup as [Hnotin _].
  apply Hnotin. constructor.
Qed.

Lemma watchForDeposits_returns_iff_cancelled_witness :
  exists fuel,
    snd (watchForDeposits Example.bitcoinTestnet Example.failsOnce
           "BTC" "Bitcoin" "2N1" (Example.cancelAt 1) fuel noCalls)
    = Returned.
Proof.
  apply (proj1 (watchForDeposits_returns_iff_cancelled
                  Example.bitcoinTestnet Example.failsOnce
                  "BTC" "Bitcoin" "2N1" (Example.cancelAt 1) noCalls
                  eq_refl eq_refl)).
  exists 1%nat. reflexivity.
Defined.

Lemma fetchUTXOs_attempted_once_witness :
  let events :=
    fst (watchForDeposits Example.bitcoinTestnet Example.failsOnce
           "BTC" "Bitcoin" "2N1" (Example.cancelAt 2) 3 noCalls) in
  length (List.filter isFetchUTXOs events) = 2%nat
  /\ Forall (fun attempts => attempts = 1%nat) (attemptsBeforeLog events 0)
  /\ length (List.filter isConsoleError events) = 1%nat.
Proof.
  exact (fetchUTXOs_attempted_once
           Example.bitcoinTestnet Example.failsOnce "BTC" "Bitcoin" "2N1"
           (Example.cancelAt 2) noCalls eq_refl eq_refl 3).
Defined.

(** C8 as stated does not hold: when [fetchUTXOs] fails, the error is
    logged after one attempt, not two, although a second attempt would
    have succeeded here. *)
Lemma fetchUTXOs_not_retried :
  let events :=
    fst (watchForDeposits Example.bitcoinTestnet Example.failsOnce
           "BTC" "Bitcoin" "2N1" (Example.cancelAt 1) 2 noCalls) in
  events = [FetchTXs "2N1"; ListenerCancelled false; FetchUTXOs "2N1";
            ConsoleError (ProviderFailure "timeout"); Sleep 15000;
            ListenerCancelled true]
  /\ ~ Forall (fun attempts => attempts = 2%nat) (attemptsBeforeLog events 0).
Proof.
  split; [reflexivity|].
  vm_compute. intros Hall. apply Forall_inv in Hall. discriminate Hall.
Qed.

(** ** Confirmations *)

Lemma BigNumber_depth (latest height : Z) :
  BigNumber.plus
    (BigNumber.minus (BigNumber.of_Z latest) (BigNumber.of_Z height))
    (BigNumber.of_Z 1)
  = BigNumber.of_Z (latest - height + 1).
Proof.
  unfold BigNumber.plus, BigNumber.minus, BigNumber.normalize, BigNumber.of_Z.
  simpl. f_equal. lia.
Qed.




(** ** Unit conversion *)

Section UnitConversion.
Import BigNumber.

Lemma strip_mul10 c d : strip (c * 10) (S d) = strip c d.
Proof.
  simpl. rewrite Z.mod_mul by lia. simpl. rewrite Z.div_mul by lia. reflexivity.
Qed.

Lemma strip_pow10 c d k :
  strip (c * 10 ^ Z.of_nat k) (d + k) = strip c d.
Proof.
  revert c d. induction k as [|k IH]; intros c d.
  - rewrite Nat.add_0_r. simpl. rewrite Z.mul_1_r. reflexivity.
  - replace (d + S k)%nat with (S (d + k)) by lia.
    rewrite Nat2Z.inj_succ, Z.pow_succ_r by lia.
    replace (c * (10 * 10 ^ Z.of_nat k)) with (c * 10 ^ Z.of_nat k * 10) by lia.
    rewrite strip_mul10. apply IH.
Qed.

Lemma normalize_strip c d : normalize (strip c d) = strip c d.
Proof.
  revert c. induction d as [|d IH]; intros c.
  - reflexivity.
  - simpl. destruct (Z.eqb_spec (c mod 10) 0) as [Hz|Hnz].
    + apply IH.
    + unfold normalize. simpl.
      destruct (Z.eqb_spec (c mod 10) 0); [contradiction|reflexivity].
Qed.

Lemma normalize_idempotent x : normalize (normalize x) = normalize x.
Proof. apply normalize_strip. Qed.

Lemma round_half_up_exact k den :
  0 < den -> round_half_up (k * den) den = k.
Proof.
  intros Hden. unfold round_half_up.
  rewrite (Z.abs_eq den) by lia. rewrite Z.abs_mul, (Z.abs_eq den) by lia.
  rewrite (Z.sgn_pos den) by lia.
  replace (2 * (Z.abs k * den) + den) with (den + Z.abs k * (2 * den)) by lia.
  rewrite Z.div_add by lia. rewrite Z.div_small by lia.
  rewrite Z.sgn_mul, (Z.sgn_pos den) by lia.
  rewrite !Z.mul_1_r. rewrite Z.add_0_l. lia.
Qed.

(** Strings of digits. *)

Lemma numeric_cons c s :
  numeric (String c s) ->
  Ascii.eqb c "." = false /\ Ascii.eqb c "-" = false /\ numeric s.
Proof.
  intros [u Hu]. simpl in Hu.
  destruct (NilEmpty.uint_of_string s) as [u'|] eqn:Hs; [|discriminate].
  apply uint_of_char_spec in Hu.
  split; [|split; [|exists u'; exact Hs]];
    decompose [or and] Hu; subst; reflexivity.
Qed.

Lemma numeric_app a b : numeric (a ++ b) -> numeric a /\ numeric b.
Proof.
  induction a as [|c a IH]; simpl; intros Hab.
  - split; [exists Nil; reflexivity|assumption].
  - destruct Hab as [u Hu]. simpl in Hu.
    destruct (NilEmpty.uint_of_string (a ++ b)) as [u'|] eqn:Hs;
      [|discriminate].
    destruct IH as [[ua Ha] Hb]; [exists u'; exact Hs|].
    split; [|assumption].
    apply uint_of_char_spec in Hu.
    unfold numeric. simpl. rewrite Ha.
    decompose [or and] Hu; subst; simpl; eauto.
Qed.

Lemma split_dot_numeric s : numeric s -> split_dot s = (s, None).
Proof.
  induction s as [|c s IH]; intros Hs; [reflexivity|].
  apply numeric_cons in Hs. destruct Hs as (Hdot & _ & Hs).
  simpl. rewrite Hdot, (IH Hs). reflexivity.
Qed.

Lemma split_dot_point a b :
  numeric a -> split_dot (a ++ "." ++ b) = (a, Some b).
Proof.
  induction a as [|c a IH]; intros Ha; [reflexivity|].
  apply numeric_cons in Ha. destruct Ha as (Hdot & _ & Ha).
  simpl. rewrite Hdot. simpl in IH. rewrite (IH Ha). reflexivity.
Qed.

Lemma append_cons c a b : String c a ++ b = String c (a ++ b).
Proof. reflexivity. Qed.

Lemma append_empty_l s : "" ++ s = s.
Proof. reflexivity. Qed.

Lemma append_empty_r s : s ++ "" = s.
Proof.
  induction s as [|c s IH]; [reflexivity|].
  rewrite append_cons, IH. reflexivity.
Qed.

Lemma length_append a b :
  String.length (a ++ b) = (String.length a + String.length b)%nat.
Proof.
  induction a as [|c a IH]; [reflexivity|].
  rewrite append_cons. simpl. rewrite IH. reflexivity.
Qed.

Lemma substring_all s : substring 0 (String.length s) s = s.
Proof. induction s as [|c s IH]; simpl; [|rewrite IH]; reflexivity. Qed.

Lemma substring_split s k :
  (k <= String.length s)%nat ->
  substring 0 k s ++ substring k (String.length s - k) s = s.
Proof.
  revert s. induction k as [|k IH]; intros s Hk.
  - rewrite Nat.sub_0_r, substring_all. destruct s; reflexivity.
  - destruct s as [|c s]; simpl in Hk; [lia|].
    simpl. rewrite append_cons, IH by lia. reflexivity.
Qed.

Lemma length_substring_from s k :
  (k <= String.length s)%nat ->
  String.length (substring k (String.length s - k) s)
  = (String.length s - k)%nat.
Proof.
  intros Hk.
  pose proof (f_equal String.length (substring_split s k Hk)) as Hlen.
  rewrite length_append in Hlen.
  assert (String.length (substring 0 k s) = k) as Hpre.
  { clear Hlen. revert s Hk. induction k as [|k IH]; intros s Hk.
    - destruct s; reflexivity.
    - destruct s as [|c s]; simpl in Hk; [lia|].
      simpl. rewrite IH by lia. reflexivity. }
  lia.
Qed.

Lemma length_zeros m : String.length (zeros m) = m.
Proof. induction m as [|m IH]; simpl; [|rewrite IH]; reflexivity. Qed.

Lemma valueOf_zero s : valueOf (String "0" s) = valueOf s.
Proof.
  unfold valueOf. simpl.
  destruct (NilEmpty.uint_of_string s); reflexivity.
Qed.

Lemma valueOf_zeros m s : valueOf (zeros m ++ s) = valueOf s.
Proof.
  induction m as [|m IH]; [reflexivity|].
  simpl zeros. rewrite append_cons, valueOf_zero. exact IH.
Qed.

Lemma string_of_uint_nonnil d :
  d <> Nil -> NilZero.string_of_uint d = NilEmpty.string_of_uint d.
Proof. destruct d; intros Hd; [contradiction|reflexivity..]. Qed.

Lemma to_uint_nonnil m : N.to_uint m <> Nil.
Proof.
  destruct m; simpl; [discriminate|apply DecimalPos.Unsigned.to_uint_nonnil].
Qed.

Lemma digits_parse n :
  NilEmpty.uint_of_string (digits n) = Some (N.to_uint (Z.to_N n)).
Proof.
  unfold digits. rewrite string_of_uint_nonnil by apply to_uint_nonnil.
  apply NilEmpty.usu.
Qed.

Lemma valueOf_digits n : 0 <= n -> valueOf (digits n) = Some n.
Proof.
  intros Hn. unfold valueOf. rewrite digits_parse. simpl.
  unfold Z.of_uint.
  change (Pos.of_uint (N.to_uint (Z.to_N n)))
    with (N.of_uint (N.to_uint (Z.to_N n))).
  rewrite DecimalN.Unsigned.of_to, Z2N.id by lia. reflexivity.
Qed.

Lemma digits_numeric n : numeric (digits n).
Proof. eexists. apply digits_parse. Qed.

Lemma digits_nonempty n : digits n <> "".
Proof.
  unfold digits. pose proof (to_uint_nonnil (Z.to_N n)) as Hnonnil.
  destruct (N.to_uint (Z.to_N n)); [contradiction|discriminate..].
Qed.

Lemma of_digits_value ip fp v :
  ip <> "" -> valueOf (ip ++ fp) = Some v ->
  of_digits ip fp = Some {| unscaled := v; dp := String.length fp |}.
Proof.
  intros Hip Hv. unfold of_digits.
  destruct ip as [|c ip]; [contradiction|].
  simpl String.length. simpl Nat.eqb. cbv iota.
  rewrite Hv. reflexivity.
Qed.

Lemma toFixedPoint_parse s d v :
  numeric s -> s <> "" -> valueOf s = Some v ->
  signOf (toFixedPoint s d) = (false, toFixedPoint s d)
  /\ exists ip fp,
       split_dot (toFixedPoint s d) = (ip, fp)
       /\ of_digits ip (match fp with Some f => f | None => "" end) = Some {| unscaled := v; dp := d |}.
Proof.
  intros Hnum Hne Hv. unfold toFixedPoint.
  destruct s as [|c s]; [contradiction|].
  pose proof (numeric_cons c s Hnum) as (_ & Hminus & _).
  destruct (Nat.eqb_spec d 0) as [->|Hd].
  - split; [simpl; rewrite Hminus; reflexivity|].
    exists (String c s), None. split; [apply split_dot_numeric, Hnum|].
    cbv beta iota.
    rewrite (of_digits_value (String c s) "" v); [reflexivity|discriminate|].
    rewrite append_empty_r. exact Hv.
  - destruct (Nat.ltb_spec d (String.length (String c s))) as [Hlt|Hge].
    + set (k := (String.length (String c s) - d)%nat).
      assert (Hk : (k <= String.length (String c s))%nat) by lia.
      assert (Hd' : d = (String.length (String c s) - k)%nat) by lia.
      pose proof (substring_split (String c s) k Hk) as Hsplit.
      rewrite <- Hd' in Hsplit.
      pose proof (length_substring_from (String c s) k Hk) as Hlen.
      rewrite <- Hd' in Hlen.
      assert (Hparts : numeric (substring 0 k (String c s))
                       /\ numeric (substring k d (String c s))).
      { apply numeric_app. rewrite Hsplit. exact Hnum. }
      destruct Hparts as [Hip _].
      assert (Hhead : exists r, substring 0 k (String c s) = String c r).
      { destruct k as [|k'] eqn:Ek; [lia|]. simpl. eauto. }
      destruct Hhead as [r Hr].
      split.
      * rewrite Hr, append_cons. simpl. rewrite Hminus. reflexivity.
      * exists (substring 0 k (String c s)),
               (Some (substring k d (String c s))).
        split; [apply split_dot_point, Hip|].
        cbv beta iota.
        rewrite (of_digits_value _ _ v).
        -- rewrite Hlen. reflexivity.
        -- rewrite Hr. discriminate.
        -- rewrite Hsplit. exact Hv.
    + split; [reflexivity|].
      exists "0", (Some (zeros (d - String.length (String c s))
                         ++ String c s)).
      split; [reflexivity|].
      cbv beta iota.
      rewrite (of_digits_value _ _ v).
      * rewrite length_append, length_zeros.
        replace (d - String.length (String c s)
                 + String.length (String c s))%nat with d by lia.
        reflexivity.
      * discriminate.
      * rewrite append_cons, valueOf_zero, append_empty_l, valueOf_zeros.
        exact Hv.
Qed.

Lemma signOf_minus body : signOf (String "-" body) = (true, body).
Proof. reflexivity. Qed.

Lemma of_string_toFixed x : of_string (toFixed x) = Some (normalize x).
Proof.
  unfold toFixed.
  pose proof (normalize_idempotent x) as Hidem.
  destruct (normalize x) as [c d]. cbn [unscaled dp] in *.
  destruct (toFixedPoint_parse (digits (Z.abs c)) d (Z.abs c))
    as (Hsign & ip & fp & Hsplit & Hdigits).
  { apply digits_numeric. }
  { apply digits_nonempty. }
  { apply valueOf_digits. lia. }
  unfold of_string.
  destruct (Z.ltb_spec c 0) as [Hneg|Hpos].
  - rewrite append_cons, append_empty_l, signOf_minus.
    rewrite Hsplit, Hdigits. simpl.
    replace (- Z.abs c) with c by lia. rewrite Hidem. reflexivity.
  - rewrite append_empty_l, Hsign, Hsplit, Hdigits. simpl.
    replace (Z.abs c) with c by lia. rewrite Hidem. reflexivity.
Qed.

Lemma new_normal value x : new value = Some x -> normalize x = x.
Proof.
  destruct value as [y|s]; simpl.
  - intros [= <-]. apply normalize_idempotent.
  - unfold of_string. destruct (signOf s) as [negative body].
    destruct (split_dot body) as [ip fp].
    destruct (of_digits ip _) as [y|]; simpl; [|discriminate].
    intros [= <-]. apply normalize_idempotent.
Qed.

Lemma times_1e8 x :
  (dp x <= 8)%nat ->
  times x (exponentiatedBy (of_Z 10) 8) = of_Z (satoshis x).
Proof.
  intros Hdp.
  change (exponentiatedBy (of_Z 10) 8) with (of_Z 100000000).
  unfold times, normalize, of_Z, satoshis. cbn [unscaled dp].
  replace (unscaled x * 100000000)
    with (unscaled x * 10 ^ Z.of_nat (8 - dp x) * 10 ^ Z.of_nat (dp x)).
  - rewrite Nat.add_0_r.
    change (dp x) with (0 + dp x)%nat at 3.
    rewrite strip_pow10. reflexivity.
  - rewrite <- Z.mul_assoc, <- Z.pow_add_r by lia.
    replace (Z.of_nat (8 - dp x) + Z.of_nat (dp x)) with 8 by lia.
    reflexivity.
Qed.

Lemma dividedBy_1e8 x :
  (dp x <= 8)%nat ->
  dividedBy (of_Z (satoshis x)) (exponentiatedBy (of_Z 10) 8)
  = Some (normalize x).
Proof.
  intros Hdp.
  change (exponentiatedBy (of_Z 10) 8) with (of_Z 100000000).
  unfold dividedBy, of_Z, DECIMAL_PLACES. cbn [unscaled dp].
  change (100000000 =? 0) with false. cbv iota. f_equal.
  change (10 ^ Z.of_nat (20 + 0)) with (10 ^ 12 * 100000000).
  change (100000000 * 10 ^ Z.of_nat 0) with 100000000.
  rewrite Z.mul_assoc, round_half_up_exact by lia.
  unfold normalize, satoshis. cbn [unscaled dp].
  rewrite <- Z.mul_assoc, <- Z.pow_add_r by lia.
  replace (Z.of_nat (8 - dp x) + 12) with (Z.of_nat (20 - dp x)) by lia.
  replace 20%nat with (dp x + (20 - dp x))%nat at 2 by lia.
  apply strip_pow10.
Qed.

Lemma toSats_new value x :
  new value = Some x ->
  toSats value
  = toFixed (decimalPlaces (times x (exponentiatedBy (of_Z 10) 8)) 0).
Proof. unfold toSats. intros ->. reflexivity. Qed.

Lemma fromSats_new value x :
  new value = Some x ->
  fromSats value
  = toFixed_opt (dividedBy x (exponentiatedBy (of_Z 10) 8)).
Proof. unfold fromSats. intros ->. reflexivity. Qed.

(** C6. For a value [x] with at most 8 decimal places, [toSats] gives
    the integer [x * 10^8] and [fromSats] of that string gives back the
    text of [x], which denotes [x] again. *)
Theorem sats_round_trip (value : Value) (x : t) :
  new value = Some x -> (dp x <= 8)%nat ->
  toSats value = toFixed (of_Z (unscaled x * 10 ^ Z.of_nat (8 - dp x)))
  /\ fromSats (OfString (toSats value)) = toFixed x
  /\ new (OfString (fromSats (OfString (toSats value)))) = new value.
Proof.
  intros Hnew Hdp.
  pose proof (new_normal value x Hnew) as Hnormal.
  assert (Hsats : toSats value = toFixed (of_Z (satoshis x))).
  { rewrite (toSats_new value x Hnew), times_1e8 by exact Hdp.
    reflexivity. }
  assert (Hfrom : fromSats (OfString (toSats value)) = toFixed x).
  { rewrite (fromSats_new _ (of_Z (satoshis x))).
    - rewrite dividedBy_1e8 by exact Hdp. cbn [toFixed_opt].
      rewrite Hnormal. reflexivity.
    - rewrite Hsats. cbn [new]. apply of_string_toFixed. }
  split; [exact Hsats|]. split; [exact Hfrom|].
  rewrite Hfrom, Hnew. cbn [new]. rewrite of_string_toFixed, Hnormal.
  reflexivity.
Qed.

End UnitConversion.

Lemma sats_round_trip_witness :
  toSats (BigNumber.OfString "0.12345678") = "12345678"
  /\ fromSats (BigNumber.OfString
                 (toSats (BigNumber.OfString "0.12345678")))
     = "0.12345678"
  /\ BigNumber.new
       (BigNumber.OfString
          (fromSats (BigNumber.OfString
                       (toSats (BigNumber.OfString "0.12345678")))))
     = BigNumber.new (BigNumber.OfString "0.12345678").
Proof.
  apply (sats_round_trip (BigNumber.OfString "0.12345678")
           {| BigNumber.unscaled := 12345678; BigNumber.dp := 8 |}).
  - reflexivity.
  - simpl. lia.
Defined.

(** Beyond 8 decimal places [toSats] rounds, half away from zero, and the
    value does not come back. *)
Example toSats_rounds :
  toSats (BigNumber.OfString "0.123456785") = "12345679"
  /\ fromSats (BigNumber.OfString "12345679") = "0.12345679".
Proof. split; reflexivity. Qed.

Example toFixed_examples :
  BigNumber.toFixed {| BigNumber.unscaled := -1234567800; BigNumber.dp := 8 |}
    = "-12.345678"
  /\ BigNumber.toFixed {| BigNumber.unscaled := 5; BigNumber.dp := 3 |}
     = "0.005"
  /\ BigNumber.toFixed {| BigNumber.unscaled := 0; BigNumber.dp := 8 |} = "0".
Proof. repeat split; reflexivity. Qed.

Example of_string_examples :
  BigNumber.of_string "-12.3400"
    = Some {| BigNumber.unscaled := -1234; BigNumber.dp := 2 |}
  /\ BigNumber.of_string "00.05"
     = Some {| BigNumber.unscaled := 5; BigNumber.dp := 2 |}
  /\ BigNumber.of_string "." = None
  /\ BigNumber.of_string "-" = None.
Proof. repeat split; reflexivity. Qed.

(** * Further properties *)

(** ** Transaction ids *)

Section Codecs.
Context `{Imports}.

Hypothesis base64_round_trip : forall b, fromBase64 (toURLBase64 b) = b.

(** X1. [transactionHash] undoes the byte reversal and re-encoding that
    [watchForDeposits] applies to a provider's txid: for a txid that is
    the hex text of its bytes, the hash of a reported deposit is the
    provider's txid. *)
Theorem transactionHash_of_deposit (tx : UTXO.t) :
  toHexString (fromHex (UTXO.txid tx)) = UTXO.txid tx ->
  transactionHash (asChainTransaction (toDeposit tx)) = UTXO.txid tx.
Proof.
  intros Hhex. unfold transactionHash, asChainTransaction, toDeposit.
  cbn [ChainTransaction.txid InputChainTransaction.txid].
  rewrite base64_round_trip, rev_involutive. exact Hhex.
Qed.

(** X2. Asked about a deposit it reported, [transactionConfidence] looks
    the output up under the provider's own txid and index: an output
    the provider then reports at height [h] under a chain of height [c]
    has confidence [c - h + 1], and a failing lookup is the error. *)
Theorem transactionConfidence_of_deposit (env : Env) (tx : UTXO.t)
    (calls : Calls) :
  toHexString (fromHex (UTXO.txid tx)) = UTXO.txid tx ->
  let lookup :=
    fetchUTXO env (nFetchUTXO calls) (UTXO.txid tx) (UTXO.txindex tx) in
  let depth :=
    fst (transactionConfidence env (asChainTransaction (toDeposit tx))
           calls) in
  (forall utxo h c,
     lookup = Ok utxo -> UTXO.height utxo = Some h -> h <> 0 ->
     fetchHeight env (nFetchHeight calls) = Ok c ->
     depth = Ok (BigNumber.of_Z (c - h + 1)))
  /\ (forall e, lookup = Throw e -> depth = Throw e).
Proof.
  intros Hhex lookup depth. subst lookup depth.
  unfold transactionConfidence, transactionHash, asChainTransaction,
    toDeposit.
  cbn [ChainTransaction.txid ChainTransaction.txindex
       InputChainTransaction.txid InputChainTransaction.txindex].
  rewrite base64_round_trip, rev_involutive, Hhex.
  split.
  - intros utxo h c -> -> Hh ->.
    destruct (Z.eqb_spec h 0) as [->|_]; [contradiction|].
    cbn [fst]. rewrite BigNumber_depth. reflexivity.
  - intros e ->. reflexivity.
Qed.

(** X3. A deposit reported by [watchForDeposits] passes
    [validateTransaction] exactly when the provider's txid is the hex
    text of 32 bytes and its index is a number. *)
Theorem validateTransaction_of_deposit (isNaN : string -> bool)
    (tx : UTXO.t) :
  validateTransaction isNaN (asChainTransaction (toDeposit tx)) = true
  <-> length (fromHex (UTXO.txid tx)) = 32%nat
      /\ isNaN (UTXO.txindex tx) = false.
Proof.
  unfold validateTransaction, asChainTransaction, toDeposit.
  cbn [ChainTransaction.txid ChainTransaction.txindex
       InputChainTransaction.txid InputChainTransaction.txindex].
  rewrite base64_round_trip, length_rev, andb_true_iff, Nat.eqb_eq,
    negb_true_iff.
  reflexivity.
Qed.

End Codecs.

(** ** Providers *)

Lemma fold_withAPI_api (ps : list Provider) (this : BitcoinBaseChain) :
  api (fold_left (fun t p => withAPI t p 0) ps this)
  = (api this ++ map registered ps)%list.
Proof.
  revert this. induction ps as [|p ps IH]; intros this; simpl.
  - rewrite app_nil_r. reflexivity.
  - rewrite IH. unfold withAPI, CombinedAPI_withAPI. simpl.
    rewrite <- app_assoc. reflexivity.
Qed.

(** X4. The calls the class makes on its provider pool. The constructor
    hands every provider of the configuration it resolved to
    [CombinedAPI.withAPI], once each and in the configuration's order: the
    provider as the configuration lists it, bare or with a priority of
    its own, and [0] as the priority option, since the constructor names
    none. It makes no other call on the pool. A later [withAPI] adds one
    call, after the earlier ones, with the provider and the priority
    option it was given. *)
Theorem providers_registered (config : BitcoinNetworkConfig)
    (this : BitcoinBaseChain) :
  ConfiguredWith config this ->
  (forall cm input, new_BitcoinBaseChain cm input = Ok this ->
     api this = map registered (providers config) /\ configMap this = cm)
  /\ exists later,
       api this = (map registered (providers config) ++ later)%list
       /\ forall api' prio,
            api (withAPI this api' prio)
            = (map registered (providers config) ++ later
               ++ [ {| provider := api'; priorityOption := prio |} ])%list.
Proof.
  intros Hconf.
  assert (Hconfigure : forall cm c,
    api (configure cm c) = map registered (providers c)).
  { intros cm c. unfold configure. rewrite fold_withAPI_api. reflexivity. }
  assert (Hnew : forall cm input this',
    new_BitcoinBaseChain cm input = Ok this' ->
    api this' = map registered (providers (network this'))
    /\ configMap this' = cm).
  { clear Hconf. intros cm input this'. unfold new_BitcoinBaseChain.
    destruct (isBitcoinNetworkConfig input) as [c|].
    - intros [= <-]. destruct (configure_fields cm c) as (Hn & _ & Hm).
      rewrite Hn, Hm, Hconfigure. auto.
    - destruct (getProperty cm (propertyKey input)) as [c| |].
      + intros [= <-]. destruct (configure_fields cm c) as (Hn & _ & Hm).
        rewrite Hn, Hm, Hconfigure. auto.
      + discriminate.
      + destruct (isString input); discriminate. }
  split.
  - intros cm input Hok.
    destruct (ConfiguredWith_fields config this Hconf) as [Hnet _].
    rewrite <- Hnet. apply (Hnew cm input this Hok).
  - assert (Hprefix : exists later,
      api this = (map registered (providers config) ++ later)%list).
    { induction Hconf as [cm input this Hok Hnet | this api' prio _ IH].
      - exists []. rewrite app_nil_r, <- Hnet.
        apply (Hnew cm input this Hok).
      - destruct IH as [later Hlater].
        exists (later
                ++ [ {| provider := api'; priorityOption := prio |} ])%list.
        unfold withAPI, CombinedAPI_withAPI. simpl.
        rewrite Hlater, <- app_assoc. reflexivity. }
    destruct Hprefix as [later Hlater]. exists later.
    split; [exact Hlater|].
    intros api' prio. unfold withAPI, CombinedAPI_withAPI. simpl.
    rewrite Hlater, <- app_assoc. reflexivity.
Qed.

(** ** Balances and addresses *)

Section Adapter.
Context `{Imports}.
Variable this : BitcoinBaseChain.

Lemma assetIsNative_iff asset :
  assetIsNative this asset = true
  <-> asset = symbol (nativeAsset (network this)).
Proof. unfold assetIsNative. apply String.eqb_eq. Qed.

(** X5. [getBalance] succeeds exactly for the native asset and an address
    that the validator accepts for the network type the class hands it
    ("prod" on a test network, "testnet" otherwise); the asset is checked
    first, so for another asset the error is the unsupported-asset one
    whatever the address, and the invalid-address error means the asset
    was the native one. *)
Theorem getBalance_cases (asset address : string) :
  let native := symbol (nativeAsset (network this)) in
  let networkType := if isTestnet (network this) then "prod" else "testnet" in
  (is_ok (getBalance this asset address) = true
   <-> asset = native
       /\ utils_validateAddress address native networkType = true)
  /\ (asset <> native ->
      getBalance this asset address
      = Throw (UnsupportedAsset asset (chain this)))
  /\ (getBalance this asset address = Throw (InvalidAddress address)
      <-> asset = native
          /\ utils_validateAddress address native networkType = false).
Proof.
  intros native networkType. subst native networkType.
  unfold getBalance, assertAssetIsSupported, validateAddress.
  destruct (assetIsNative this asset) eqn:Hasset; simpl.
  - apply assetIsNative_iff in Hasset.
    destruct (utils_validateAddress address _ _) eqn:Hvalid; simpl.
    + split; [tauto|]. split; [congruence|].
      split; [discriminate|]. intros [_ Habs]. discriminate.
    + split; [split; [discriminate|]; intros [_ Habs]; discriminate|].
      split; [congruence|]. tauto.
  - assert (Hne : asset <> symbol (nativeAsset (network this))).
    { intros Heq. apply assetIsNative_iff in Heq. congruence. }
    split; [split; [discriminate|]; intros [Habs _]; contradiction|].
    split; [reflexivity|].
    split; [discriminate|]. intros [Habs _]. contradiction.
Qed.

(** X6. A payload made by the adapter's own [Address] passes the payload
    check: with it [createGatewayAddress] succeeds exactly for the native
    asset, whatever the key and hash, and [watchForDeposits] is not
    rejected for the native asset. *)
Theorem own_payload_is_accepted (asset address : string)
    (shardPublicKey gHash : Buffer) :
  let payload := Address this address in
  (createGatewayAddress this asset (Payload.chain payload)
     shardPublicKey gHash
   = if assetIsNative this asset
     then Ok (gatewayAddressOf (p2shPrefix (network this))
                shardPublicKey gHash)
     else Throw (UnsupportedAsset asset (chain this)))
  /\ (assetIsNative this asset = true ->
      forall env watched listenerCancelled fuel calls e,
        snd (watchForDeposits this env asset (Payload.chain payload)
               watched listenerCancelled fuel calls) <> Rejected e)
  /\ burnPayload (Some payload) = Some address.
Proof.
  cbv zeta. unfold Address. cbn [Payload.chain Payload.address].
  split; [|split; [|reflexivity]].
  - unfold createGatewayAddress, assertAssetIsSupported.
    rewrite String.eqb_refl. simpl.
    destruct (assetIsNative this asset); reflexivity.
  - intros Hasset env watched listenerCancelled fuel calls e.
    rewrite (watchForDeposits_run this env asset (chain this) watched
               listenerCancelled calls (String.eqb_refl _) Hasset).
    cbn [snd]. apply pollingLoop_not_Rejected.
Qed.

End Adapter.


(** ** More on watching *)

Section Loop.
Context `{Imports}.
Variable env : Env.
Variable address : string.
Variable listenerCancelled : nat -> bool.

Lemma pollingLoop_stable fuel extra i n :
  snd (pollingLoop env address listenerCancelled fuel i n) = Returned ->
  pollingLoop env address listenerCancelled (fuel + extra) i n
  = pollingLoop env address listenerCancelled fuel i n.
Proof.
  revert i n. induction fuel as [|fuel IH]; intros i n.
  - discriminate.
  - change (S fuel + extra)%nat with (S (fuel + extra)).
    rewrite !pollingLoop_S.
    destruct (listenerCancelled i); [reflexivity|].
    cbv zeta. cbn [snd]. intros Hret. rewrite (IH _ _ Hret). reflexivity.
Qed.

Lemma pollingLoop_last fuel i n :
  snd (pollingLoop env address listenerCancelled fuel i n) = Returned ->
  exists before,
    fst (pollingLoop env address listenerCancelled fuel i n)
    = (before ++ [ListenerCancelled true])%list.
Proof.
  revert i n. induction fuel as [|fuel IH]; intros i n.
  - discriminate.
  - rewrite pollingLoop_S.
    destruct (listenerCancelled i); [intros _; exists []; reflexivity|].
    cbv zeta. cbn [fst snd]. intros Hret.
    destruct (IH _ _ Hret) as [before Hbefore]. rewrite Hbefore.
    eexists (ListenerCancelled false :: _ ++ Sleep (15 * SECONDS) :: before)%list.
    simpl. rewrite <- app_assoc. reflexivity.
Qed.

(** X10. In the polling loop, every iteration that gets past the
    predicate sleeps once, for [15 * SECONDS], whether its [fetchUTXOs]
    succeeded or failed, and the sleep is the last thing the iteration
    does: the sleeps of the loop are as many as the iterations run, all of
    the same length, and an iteration is the predicate's answer, the
    poll, the handler calls or the logged error, and then the sleep. *)
Theorem one_sleep_per_iteration (fuel i n : nat) :
  List.filter isSleep
    (fst (pollingLoop env address listenerCancelled fuel i n))
  = repeat (Sleep (15 * SECONDS)) (iterationsRun listenerCancelled fuel i)
  /\ (listenerCancelled i = false ->
      exists poll,
        List.filter isSleep poll = []
        /\ fst (pollingLoop env address listenerCancelled (S fuel) i n)
           = (ListenerCancelled false :: poll
              ++ Sleep (15 * SECONDS)
                 :: fst (pollingLoop env address listenerCancelled
                           fuel (S i) (S n)))%list).
Proof.
  split.
  - revert i n. induction fuel as [|fuel IH]; intros i n.
    + reflexivity.
    + rewrite pollingLoop_S. simpl iterationsRun.
      destruct (listenerCancelled i); [reflexivity|].
      cbv zeta. cbn [fst]. simpl. rewrite List.filter_app. simpl.
      rewrite IH.
      destruct (fetchUTXOs env n address); simpl;
        rewrite ?filter_reportDeposits by reflexivity; reflexivity.
  - intros Hgo. rewrite pollingLoop_S, Hgo. cbv zeta. cbn [fst].
    eexists. split; [|reflexivity].
    destruct (fetchUTXOs env n address); simpl;
      rewrite ?filter_reportDeposits by reflexivity; reflexivity.
Qed.

End Loop.

Section MoreSession.
Context `{Imports}.
Variable this : BitcoinBaseChain.
Variable env : Env.
Variables asset payloadChain address : string.
Variable listenerCancelled : nat -> bool.
Variable calls : Calls.

Hypothesis payload_for_this_chain :
  String.eqb payloadChain (chain this) = true.
Hypothesis asset_supported : assetIsSupported this asset = true.

(** X8. A session whose listener is cancelled from the start still runs
    the first [try] block: [fetchTXs] is called and the handler gets
    every output it returns, before the predicate is asked for the first
    time; [fetchUTXOs] is not called. *)
Theorem cancelled_session_still_discovers (fuel : nat) :
  listenerCancelled 0%nat = true ->
  watchForDeposits this env asset payloadChain address
    listenerCancelled (S fuel) calls
  = ((discoveryAttempts env address (nFetchTXs calls)
      ++ reportDeposits (discovered env address (nFetchTXs calls))
      ++ [ListenerCancelled true])%list,
     Returned).
Proof.
  intros Hcancelled.
  rewrite (watchForDeposits_run this env asset payloadChain address
             listenerCancelled calls payload_for_this_chain asset_supported).
  rewrite pollingLoop_S, Hcancelled. reflexivity.
Qed.

(** X9. Once a session has returned, nothing more happens: run for any
    number of further iterations it gives the same calls and the same
    outcome, and the last thing it did was to ask the predicate, which
    answered [true]. *)
Theorem returned_session_is_over (fuel extra : nat) :
  snd (watchForDeposits this env asset payloadChain address
         listenerCancelled fuel calls) = Returned ->
  watchForDeposits this env asset payloadChain address
    listenerCancelled (fuel + extra) calls
  = watchForDeposits this env asset payloadChain address
      listenerCancelled fuel calls
  /\ exists before,
       fst (watchForDeposits this env asset payloadChain address
              listenerCancelled fuel calls)
       = (before ++ [ListenerCancelled true])%list.
Proof.
  rewrite !(watchForDeposits_run this env asset payloadChain address
              listenerCancelled calls payload_for_this_chain
              asset_supported).
  cbn [fst snd]. intros Hret. split.
  - rewrite (pollingLoop_stable env address listenerCancelled fuel extra
               _ _ Hret). reflexivity.
  - destruct (pollingLoop_last env address listenerCancelled fuel _ _ Hret)
      as [before Hbefore].
    rewrite Hbefore.
    exists (discoveryAttempts env address (nFetchTXs calls)
            ++ reportDeposits (discovered env address (nFetchTXs calls))
            ++ before)%list.
    rewrite <- !app_assoc. reflexivity.
Qed.

End MoreSession.

(** ** More on confirmations *)

Section Confidence.
Context `{Imports}.
Variable env : Env.
Variable transaction : ChainTransaction.t.

(** X11. The confidence follows the chain: for an output reported at the
    same height by two calls, the second result exceeds the first by
    exactly the growth of the chain between them, so it does not
    decrease as long as the reported chain height does not. *)
Theorem confidence_follows_height (calls1 calls2 : Calls)
    (utxo1 utxo2 : UTXO.t) (h c1 c2 : Z) :
  fetchUTXO env (nFetchUTXO calls1) (transactionHash transaction)
    (ChainTransaction.txindex transaction) = Ok utxo1 ->
  fetchUTXO env (nFetchUTXO calls2) (transactionHash transaction)
    (ChainTransaction.txindex transaction) = Ok utxo2 ->
  UTXO.height utxo1 = Some h -> UTXO.height utxo2 = Some h -> h <> 0 ->
  fetchHeight env (nFetchHeight calls1) = Ok c1 ->
  fetchHeight env (nFetchHeight calls2) = Ok c2 ->
  exists d1 d2,
    fst (transactionConfidence env transaction calls1)
      = Ok (BigNumber.of_Z d1)
    /\ fst (transactionConfidence env transaction calls2)
       = Ok (BigNumber.of_Z d2)
    /\ d2 - d1 = c2 - c1
    /\ (c1 <= c2 -> d1 <= d2).
Proof.
  intros Hu1 Hu2 Hh1 Hh2 Hh Hc1 Hc2.
  exists (c1 - h + 1), (c2 - h + 1).
  unfold transactionConfidence.
  rewrite Hu1, Hu2, Hh1, Hh2, Hc1, Hc2.
  destruct (Z.eqb_spec h 0) as [->|_]; [contradiction|].
  cbn [fst]. rewrite !BigNumber_depth.
  repeat split; lia.
Qed.

(** X12. The result is not clamped: for a mined output it is positive
    only when the reported chain height has reached the output's height;
    under a lagging height it is 0, the value that otherwise means
    unconfirmed, at one block behind, and negative further behind. *)
Theorem confidence_is_not_clamped (calls : Calls) (utxo : UTXO.t) (h c : Z) :
  fetchUTXO env (nFetchUTXO calls) (transactionHash transaction)
    (ChainTransaction.txindex transaction) = Ok utxo ->
  UTXO.height utxo = Some h -> h <> 0 ->
  fetchHeight env (nFetchHeight calls) = Ok c ->
  exists d,
    fst (transactionConfidence env transaction calls) = Ok (BigNumber.of_Z d)
    /\ (0 < d <-> h <= c)
    /\ (d = 0 <-> c = h - 1)
    /\ (d < 0 <-> c < h - 1).
Proof.
  intros Hu Hh Hnz Hc. exists (c - h + 1).
  unfold transactionConfidence. rewrite Hu, Hh, Hc.
  destruct (Z.eqb_spec h 0) as [->|_]; [contradiction|].
  cbn [fst]. rewrite BigNumber_depth.
  repeat split; lia.
Qed.


End Confidence.

(** ** More on unit conversion *)

Section MoreUnitConversion.
Import BigNumber.

Lemma strip_value c d :
  unscaled (strip c d) * 10 ^ Z.of_nat d
  = c * 10 ^ Z.of_nat (dp (strip c d)).
Proof.
  revert c. induction d as [|d IH]; intros c.
  - reflexivity.
  - simpl strip. destruct (Z.eqb_spec (c mod 10) 0) as [Hz|Hnz].
    + rewrite Nat2Z.inj_succ, Z.pow_succ_r by lia.
      pose proof (IH (c / 10)) as Hrec.
      pose proof (Z.div_mod c 10 ltac:(lia)) as Hdiv.
      rewrite Hz, Z.add_0_r in Hdiv.
      rewrite Hdiv at 2.
      replace (unscaled (strip (c / 10) d) * (10 * 10 ^ Z.of_nat d))
        with (10 * (unscaled (strip (c / 10) d) * 10 ^ Z.of_nat d)) by lia.
      rewrite Hrec. lia.
    + reflexivity.
Qed.

Lemma strip_dp c d : (dp (strip c d) <= d)%nat.
Proof.
  revert c. induction d as [|d IH]; intros c; simpl.
  - lia.
  - destruct (c mod 10 =? 0); [specialize (IH (c / 10)); lia|simpl; lia].
Qed.

(** Two pairs with the same value have the same normal form. *)
Lemma strip_same_value c1 d1 c2 d2 :
  c1 * 10 ^ Z.of_nat d2 = c2 * 10 ^ Z.of_nat d1 ->
  (d1 <= d2)%nat ->
  strip c2 d2 = strip c1 d1.
Proof.
  intros Hval Hle.
  assert (Hc2 : c2 = c1 * 10 ^ Z.of_nat (d2 - d1)).
  { replace (Z.of_nat d2) with (Z.of_nat d1 + Z.of_nat (d2 - d1)) in Hval
      by lia.
    rewrite Z.pow_add_r in Hval by lia.
    assert (0 < 10 ^ Z.of_nat d1) by (apply Z.pow_pos_nonneg; lia).
    nia. }
  rewrite Hc2.
  replace d2 with (d1 + (d2 - d1))%nat at 2 by lia.
  apply strip_pow10.
Qed.

Lemma round_half_up_scale n den m :
  0 < den -> 0 < m ->
  round_half_up (n * m) (den * m) = round_half_up n den.
Proof.
  intros Hden Hm. unfold round_half_up.
  rewrite Z.abs_mul, (Z.abs_eq m), (Z.abs_eq (den * m)), (Z.abs_eq den)
    by nia.
  rewrite !Z.sgn_mul, (Z.sgn_pos m), (Z.sgn_pos den) by lia.
  rewrite !Z.mul_1_r. f_equal.
  replace (2 * (Z.abs n * m) + den * m) with ((2 * Z.abs n + den) * m)
    by lia.
  replace (2 * (den * m)) with (2 * den * m) by lia.
  apply Z.div_mul_cancel_r; lia.
Qed.

Lemma round_half_up_same_value c1 d1 c2 d2 :
  c1 * 10 ^ Z.of_nat d2 = c2 * 10 ^ Z.of_nat d1 ->
  round_half_up c1 (10 ^ Z.of_nat d1) = round_half_up c2 (10 ^ Z.of_nat d2).
Proof.
  intros Hval.
  assert (0 < 10 ^ Z.of_nat d1) by (apply Z.pow_pos_nonneg; lia).
  assert (0 < 10 ^ Z.of_nat d2) by (apply Z.pow_pos_nonneg; lia).
  rewrite <- (round_half_up_scale c1 _ (10 ^ Z.of_nat d2)) by assumption.
  rewrite <- (round_half_up_scale c2 _ (10 ^ Z.of_nat d1)) by assumption.
  rewrite Hval. f_equal. lia.
Qed.

Lemma round_half_up_one n : round_half_up n 1 = n.
Proof.
  unfold round_half_up.
  change (Z.abs 1) with 1. change (Z.sgn 1) with 1. change (2 * 1) with 2.
  replace (2 * Z.abs n + 1) with (1 + Z.abs n * 2) by lia.
  rewrite Z.div_add by lia. change (1 / 2) with 0. lia.
Qed.

Lemma decimalPlaces_0 y :
  decimalPlaces y 0
  = of_Z (round_half_up (unscaled y) (10 ^ Z.of_nat (dp y))).
Proof.
  unfold decimalPlaces, normalize.
  destruct y as [c [|d]]; cbn [unscaled dp Nat.leb].
  - simpl. rewrite round_half_up_one. reflexivity.
  - rewrite Nat.sub_0_r. reflexivity.
Qed.

Lemma toFixed_normalize z : toFixed (normalize z) = toFixed z.
Proof. unfold toFixed. rewrite normalize_idempotent. reflexivity. Qed.

(** X14. [toSats] gives the text of an integer for every finite value:
    the value times [10^8], rounded to the nearest integer, halves away
    from zero. Digits beyond the eighth decimal place are not kept. *)
Theorem toSats_rounds_half_up (value : Value) (x : t) :
  new value = Some x ->
  let sats :=
    round_half_up (unscaled x * 10 ^ 8) (10 ^ Z.of_nat (dp x)) in
  toSats value = toFixed (of_Z sats)
  /\ new (OfString (toSats value)) = Some (of_Z sats).
Proof.
  intros Hnew sats.
  assert (Hsats : toSats value = toFixed (of_Z sats)).
  { rewrite (toSats_new value x Hnew), decimalPlaces_0. f_equal. f_equal.
    subst sats.
    change (exponentiatedBy (of_Z 10) 8) with (of_Z 100000000).
    unfold times, normalize, of_Z. cbn [unscaled dp].
    apply round_half_up_same_value.
    rewrite Nat.add_0_r.
    pose proof (strip_value (unscaled x * 100000000) (dp x)) as Hval.
    change (10 ^ 8) with 100000000. lia. }
  split; [exact Hsats|].
  rewrite Hsats. cbn [new]. rewrite of_string_toFixed. reflexivity.
Qed.

Lemma dividedBy_1e8_exact x :
  (dp x <= 12)%nat ->
  dividedBy x (exponentiatedBy (of_Z 10) 8)
  = Some (normalize {| unscaled := unscaled x; dp := dp x + 8 |}).
Proof.
  intros Hdp.
  change (exponentiatedBy (of_Z 10) 8) with (of_Z 100000000).
  unfold dividedBy, of_Z, DECIMAL_PLACES. cbn [unscaled dp].
  change (100000000 =? 0) with false. cbv iota. f_equal.
  unfold normalize. cbn [unscaled dp].
  assert (Hexact :
    round_half_up (unscaled x * 10 ^ Z.of_nat (20 + 0))
      (100000000 * 10 ^ Z.of_nat (dp x))
    = unscaled x * 10 ^ Z.of_nat (12 - dp x)).
  { assert (0 < 10 ^ Z.of_nat (dp x)) by (apply Z.pow_pos_nonneg; lia).
    replace (unscaled x * 10 ^ Z.of_nat (20 + 0))
      with (unscaled x * 10 ^ Z.of_nat (12 - dp x)
            * (100000000 * 10 ^ Z.of_nat (dp x))).
    - apply round_half_up_exact. lia.
    - replace (Z.of_nat (20 + 0))
        with (Z.of_nat (12 - dp x) + (8 + Z.of_nat (dp x))) by lia.
      rewrite !Z.pow_add_r by lia. change (10 ^ 8) with 100000000. lia. }
  rewrite Hexact.
  replace 20%nat with (dp x + 8 + (12 - dp x))%nat by lia.
  apply strip_pow10.
Qed.

(** X15. [fromSats] is exact for a value with at most 12 decimal places:
    the result is the text of the value with the decimal point moved 8
    places to the left. (The quotient is kept to 20 decimal places.) *)
Theorem fromSats_exact (value : Value) (x : t) :
  new value = Some x -> (dp x <= 12)%nat ->
  fromSats value
  = toFixed {| unscaled := unscaled x; dp := dp x + 8 |}.
Proof.
  intros Hnew Hdp.
  rewrite (fromSats_new value x Hnew), dividedBy_1e8_exact by exact Hdp.
  cbn [toFixed_opt]. apply toFixed_normalize.
Qed.

(** X16. For every integer number of satoshis [toSats] undoes
    [fromSats]: converting the amount to whole units and back gives the
    text of the same integer. *)
Theorem toSats_fromSats (value : Value) (x : t) :
  new value = Some x -> dp x = 0%nat ->
  toSats (OfString (fromSats value)) = toFixed x.
Proof.
  intros Hnew Hdp.
  rewrite (fromSats_new value x Hnew), dividedBy_1e8_exact by lia.
  cbn [toFixed_opt]. rewrite toFixed_normalize.
  rewrite Hdp. cbn [Nat.add].
  rewrite (toSats_new _ (normalize {| unscaled := unscaled x; dp := 8 |}))
    by (cbn [new]; apply of_string_toFixed).
  rewrite decimalPlaces_0.
  change (exponentiatedBy (of_Z 10) 8) with (of_Z 100000000).
  rewrite <- (toFixed_normalize x). f_equal.
  unfold normalize at 3. rewrite Hdp. cbn [strip].
  unfold of_Z. f_equal.
  unfold times, normalize. cbn [unscaled dp].
  rewrite Nat.add_0_r.
  set (y := strip (unscaled x) 8).
  pose proof (strip_value (unscaled x) 8) as Hy. fold y in Hy.
  pose proof (strip_value (unscaled y * 100000000) (dp y)) as Hz.
  set (z := strip (unscaled y * 100000000) (dp y)) in *.
  assert (0 < 10 ^ Z.of_nat (dp y)) by (apply Z.pow_pos_nonneg; lia).
  assert (0 < 10 ^ Z.of_nat (dp z)) by (apply Z.pow_pos_nonneg; lia).
  change (10 ^ Z.of_nat 8) with 100000000 in Hy.
  replace (unscaled z)
    with (unscaled x * 10 ^ Z.of_nat (dp z)) by nia.
  apply round_half_up_exact. assumption.
Qed.

End MoreUnitConversion.

(** ** The testing environment *)

Section Stages.
Import TestEnvironment.

Lemma stage_cases (stage : string) :
  stage = "ready" \/ stage = "confirming" \/ stage = "confirmed"
  \/ stage = "renvm-signed" \/ stage = "submit-to-eth"
  \/ stage = "eth-confirmed" \/ ~ In stage stages.
Proof.
  destruct (String.eqb_spec stage "ready"); [tauto|].
  destruct (String.eqb_spec stage "confirming"); [tauto|].
  destruct (String.eqb_spec stage "confirmed"); [tauto|].
  destruct (String.eqb_spec stage "renvm-signed"); [tauto|].
  destruct (String.eqb_spec stage "submit-to-eth"); [tauto|].
  destruct (String.eqb_spec stage "eth-confirmed"); [tauto|].
  repeat right. simpl. intuition congruence.
Qed.

Lemma nextStage_unknown (stage : string) (swapResolves : bool) :
  ~ In stage stages -> nextStage stage swapResolves = [].
Proof.
  intros Hunknown. unfold nextStage.
  repeat match goal with
  | |- context [String.eqb stage ?s] =>
      destruct (String.eqb_spec stage s);
        [exfalso; apply Hunknown; subst stage; simpl; tauto|]
  end.
  reflexivity.
Qed.

(** X17. The stages form one cycle. A click at any of the six stages
    leads to another of them and never settles on "confirming"; five
    clicks from any stage other than "confirming" lead back to it. *)
Theorem clicks_cycle (stage : string) :
  In stage stages ->
  In (click stage) stages
  /\ click stage <> stage
  /\ click stage <> "confirming"
  /\ (stage <> "confirming" -> Nat.iter 5 click stage = stage).
Proof.
  intros Hin. simpl in Hin.
  decompose [or] Hin; try contradiction; subst stage;
    (split; [vm_compute; tauto|]);
    (split; [discriminate|]);
    (split; [discriminate|]);
    intros Hne; try reflexivity; contradiction.
Qed.

(** X18. Only a click at "ready" starts a swap. When the swap fails, the
    error is logged, no debug message is sent and the component stays at
    "confirming"; a click there sends the message and moves on to
    "confirmed", the stage a successful swap reaches at once. *)
Theorem failed_swap_stays_confirming (stage : string) (swapResolves : bool) :
  let effects := nextStage stage swapResolves in
  (In (StartSwap "0.123") effects <-> stage = "ready")
  /\ (In LogError effects <-> stage = "ready" /\ swapResolves = false)
  /\ (In LogError effects ->
      stageAfter stage effects = "confirming"
      /\ List.filter isDebug effects = []
      /\ click (stageAfter stage effects) = click stage).
Proof.
  cbv zeta.
  destruct (stage_cases stage) as [->|[->|[->|[->|[->|[->|Hunknown]]]]]].
  - destruct swapResolves; simpl.
    + split; [tauto|]. split.
      * split; [|intros [_ Habs]; discriminate].
        intros [Habs|[Habs|[Habs|[Habs|[]]]]]; discriminate.
      * intros [Habs|[Habs|[Habs|[Habs|[]]]]]; discriminate.
    + split; [tauto|]. split; [tauto|]. intros _.
      split; [reflexivity|]. split; reflexivity.
  - simpl. split; [split; [intros [|[|[]]]|]; discriminate|].
    split; [split; [intros [|[|[]]]; discriminate|intros [? _]; discriminate]|].
    intros [|[|[]]]; discriminate.
  - simpl. split; [split; [intros [|[|[]]]|]; discriminate|].
    split; [split; [intros [|[|[]]]; discriminate|intros [? _]; discriminate]|].
    intros [|[|[]]]; discriminate.
  - simpl. split; [split; [intros [|[|[]]]|]; discriminate|].
    split; [split; [intros [|[|[]]]; discriminate|intros [? _]; discriminate]|].
    intros [|[|[]]]; discriminate.
  - simpl. split; [split; [intros [|[|[]]]|]; discriminate|].
    split; [split; [intros [|[|[]]]; discriminate|intros [? _]; discriminate]|].
    intros [|[|[]]]; discriminate.
  - simpl. split; [split; [intros [|[|[]]]|]; discriminate|].
    split; [split; [intros [|[|[]]]; discriminate|intros [? _]; discriminate]|].
    intros [|[|[]]]; discriminate.
  - rewrite (nextStage_unknown stage swapResolves Hunknown). simpl.
    split; [split; [tauto|]; intros ->; exfalso; apply Hunknown; simpl; tauto|].
    split; [|tauto].
    split; [tauto|]. intros [-> _]. exfalso. apply Hunknown. simpl. tauto.
Qed.

(** X19. At each of the six stages exactly one button is enabled, the one
    of that stage. At any other stage every button is disabled and a
    click does nothing, so the component cannot leave it. *)
Theorem one_button_enabled (stage : string) :
  (In stage stages ->
   exists label, enabledButtons stage = [(label, stage)])
  /\ (~ In stage stages ->
      enabledButtons stage = []
      /\ forall swapResolves, nextStage stage swapResolves = []).
Proof.
  split.
  - intros Hin. simpl in Hin.
    decompose [or] Hin; try contradiction; subst stage;
      eexists; reflexivity.
  - intros Hunknown. split; [|intros; apply nextStage_unknown, Hunknown].
    unfold enabledButtons, disabled, buttons. simpl.
    repeat match goal with
    | |- context [String.eqb stage ?s] =>
        destruct (String.eqb_spec stage s);
          [exfalso; apply Hunknown; subst stage; simpl; tauto|]
    end.
    reflexivity.
Qed.

End Stages.

(** ** The properties above on the example data *)

Lemma transactionHash_of_deposit_witness :
  transactionHash (asChainTransaction (toDeposit Example.utxo)) = "abc".
Proof.
  apply (transactionHash_of_deposit (H := Example.imports)
           list_byte_of_string_of_list_byte
           Example.utxo).
  reflexivity.
Defined.

Lemma transactionConfidence_of_deposit_witness :
  fst (transactionConfidence Example.sameOutput
         (asChainTransaction (toDeposit Example.utxo)) noCalls)
  = Ok (BigNumber.of_Z 6).
Proof.
  apply (proj1 (transactionConfidence_of_deposit (H := Example.imports)
                  list_byte_of_string_of_list_byte
                  Example.sameOutput Example.utxo noCalls eq_refl)
           Example.utxo 100 105); [reflexivity|reflexivity|lia|reflexivity].
Defined.

Lemma validateTransaction_of_deposit_witness :
  validateTransaction MoreExamples.isNaN
    (asChainTransaction (toDeposit MoreExamples.utxo32)) = true.
Proof.
  apply (proj2 (validateTransaction_of_deposit (H := Example.imports)
                  list_byte_of_string_of_list_byte
                  MoreExamples.isNaN MoreExamples.utxo32)).
  split; reflexivity.
Defined.

Lemma providers_registered_witness :
  api (configure ∅ MoreExamples.withFallback)
  = [ {| provider :=
           Prioritised {| endpoint := "electrumx"; priority := 20 |};
         priorityOption := 0 |};
      {| provider := BitcoinAPI "blockstream"; priorityOption := 0 |} ].
Proof.
  apply (proj1 (providers_registered MoreExamples.withFallback
                  (configure ∅ MoreExamples.withFallback)
                  (Constructed MoreExamples.withFallback ∅
                     (NetworkConfig MoreExamples.withFallback) _
                     eq_refl eq_refl))
           ∅ (NetworkConfig MoreExamples.withFallback) eq_refl).
Defined.

Lemma getBalance_cases_witness :
  getBalance Example.bitcoinTestnet "BTC" Example.testnetAddress
  = Throw (InvalidAddress Example.testnetAddress).
Proof.
  apply (proj2 (proj2 (getBalance_cases Example.bitcoinTestnet
                         "BTC" Example.testnetAddress))).
  split; reflexivity.
Defined.

Lemma own_payload_is_accepted_witness :
  createGatewayAddress Example.bitcoinTestnet "BTC"
    (Payload.chain (Address Example.bitcoinTestnet Example.testnetAddress))
    [Byte.x02] [Byte.xaa]
  = Ok (gatewayAddressOf [Byte.xc4] [Byte.x02] [Byte.xaa]).
Proof.
  apply (proj1 (own_payload_is_accepted Example.bitcoinTestnet
                  "BTC" Example.testnetAddress [Byte.x02] [Byte.xaa])).
Defined.


Lemma cancelled_session_still_discovers_witness :
  watchForDeposits Example.bitcoinTestnet MoreExamples.indexed
    "BTC" "Bitcoin" "2N1" (Example.cancelAt 0) 1 noCalls
  = ([FetchTXs "2N1"; OnDeposit (toDeposit Example.utxo);
      ListenerCancelled true],
     Returned).
Proof.
  apply (cancelled_session_still_discovers
           Example.bitcoinTestnet MoreExamples.indexed "BTC" "Bitcoin" "2N1"
           (Example.cancelAt 0) noCalls eq_refl eq_refl 0 eq_refl).
Defined.

Lemma returned_session_is_over_witness :
  watchForDeposits Example.bitcoinTestnet Example.failsOnce
    "BTC" "Bitcoin" "2N1" (Example.cancelAt 1) (2 + 5) noCalls
  = watchForDeposits Example.bitcoinTestnet Example.failsOnce
      "BTC" "Bitcoin" "2N1" (Example.cancelAt 1) 2 noCalls.
Proof.
  apply (proj1 (returned_session_is_over
                  Example.bitcoinTestnet Example.failsOnce
                  "BTC" "Bitcoin" "2N1" (Example.cancelAt 1) noCalls
                  eq_refl eq_refl 2 5 eq_refl)).
Defined.

Lemma one_sleep_per_iteration_witness :
  List.filter isSleep
    (fst (pollingLoop Example.failsOnce "2N1" (Example.cancelAt 2) 3 0 0))
  = [Sleep 15000; Sleep 15000].
Proof.
  exact (proj1 (one_sleep_per_iteration
                  Example.failsOnce "2N1" (Example.cancelAt 2) 3 0 0)).
Defined.

Lemma confidence_follows_height_witness :
  exists d1 d2,
    fst (transactionConfidence Example.heights Example.transaction noCalls)
      = Ok (BigNumber.of_Z d1)
    /\ fst (transactionConfidence Example.heights Example.transaction
              MoreExamples.threeCalls)
       = Ok (BigNumber.of_Z d2)
    /\ d2 - d1 = 103 - 100
    /\ (100 <= 103 -> d1 <= d2).
Proof.
  apply (confidence_follows_height Example.heights Example.transaction
           noCalls MoreExamples.threeCalls Example.mined99 Example.mined99
           99 100 103); try reflexivity.
  lia.
Defined.

Lemma confidence_is_not_clamped_witness :
  exists d,
    fst (transactionConfidence MoreExamples.lagging Example.transaction
           noCalls) = Ok (BigNumber.of_Z d)
    /\ (0 < d <-> 100 <= 99)
    /\ (d = 0 <-> 99 = 100 - 1)
    /\ (d < 0 <-> 99 < 100 - 1).
Proof.
  apply (confidence_is_not_clamped MoreExamples.lagging Example.transaction
           noCalls Example.utxo 100 99); try reflexivity.
  lia.
Defined.


Lemma toSats_rounds_half_up_witness :
  toSats (BigNumber.OfString "-0.123456785") = "-12345679".
Proof.
  apply (proj1 (toSats_rounds_half_up (BigNumber.OfString "-0.123456785")
                  {| BigNumber.unscaled := -123456785; BigNumber.dp := 9 |}
                  eq_refl)).
Defined.

Lemma fromSats_exact_witness :
  fromSats (BigNumber.OfString "0.5") = "0.000000005".
Proof.
  apply (fromSats_exact (BigNumber.OfString "0.5")
           {| BigNumber.unscaled := 5; BigNumber.dp := 1 |} eq_refl).
  simpl. lia.
Defined.

Lemma toSats_fromSats_witness :
  toSats (BigNumber.OfString (fromSats (BigNumber.OfString "12345678")))
  = "12345678".
Proof.
  apply (toSats_fromSats (BigNumber.OfString "12345678")
           {| BigNumber.unscaled := 12345678; BigNumber.dp := 0 |}
           eq_refl eq_refl).
Defined.

Lemma clicks_cycle_witness :
  Nat.iter 5 TestEnvironment.click "confirmed" = "confirmed".
Proof.
  apply (proj2 (proj2 (proj2 (clicks_cycle "confirmed"
                                ltac:(simpl; tauto))))).
  discriminate.
Defined.

Lemma failed_swap_stays_confirming_witness :
  TestEnvironment.stageAfter "ready" (TestEnvironment.nextStage "ready" false)
  = "confirming".
Proof.
  apply (proj2 (proj2 (failed_swap_stays_confirming "ready" false))).
  simpl. tauto.
Defined.

Lemma one_button_enabled_witness :
  exists label,
    TestEnvironment.enabledButtons "renvm-signed" = [(label, "renvm-signed")].
Proof.
  apply (proj1 (one_button_enabled "renvm-signed")).
  simpl. tauto.
Defined.
